(** * Market Profile day-type classification: a shallow embedding

    The development follows [src/day_types.py] (the two classifiers) and
    [src/fetch_and_classify.py] (the session filter of [fetch_day_candles]
    and the metrics extractor [compute_ib_and_day_metrics]).

    Numbers.  Prices and ratios are Python floats in the source; they are
    embedded as exact rationals [Q], so every comparison and every
    arithmetic step is the one of the reals.  Numeric equalities of
    computed values are stated up to [Qeq] ([==]); values that the source
    returns as literals are equal on the nose.

    Time.  The only thing the source reads from a bar's [datetime] is its
    time of day in the exchange's zone ([.dt.tz_convert(IST).dt.time]); a
    bar therefore carries that time of day, in microseconds since
    midnight.

    Failure.  Everything in the extractor that can fail in Python (a
    positional lookup out of range, a division by zero, a reduction of an
    empty column) is an explicit [Raised] outcome of a small exception
    monad, so that "does not raise" is a statement about the code and not
    about the type of the model. *)

From Stdlib Require Import ZArith QArith Qabs Qminmax Lqa Lia.
From Stdlib Require Import Bool List String Sorted.
Import ListNotations.

Local Open Scope Q_scope.

(* ===================================================================== *)
(** ** Rational helpers: the float operators the source uses            *)
(* ===================================================================== *)

(** [a <= b] on floats. *)
Definition Qleb (a b : Q) : bool := Qle_bool a b.

(** [a < b] on floats. *)
Definition Qltb (a b : Q) : bool := negb (Qle_bool b a).

(** [a >= b] and [a > b], written as in the source. *)
Definition Qgeb (a b : Q) : bool := Qleb b a.
Definition Qgtb (a b : Q) : bool := Qltb b a.

(** Python truthiness of a float: [if x] holds iff [x != 0]. *)
Definition truthy (x : Q) : bool := negb (Qeq_bool x 0).

(* ===================================================================== *)
(** ** [src/day_types.py]                                               *)
(* ===================================================================== *)

(** IB size thresholds (percent of the 09:15 open price). *)
Definition IB_SMALL_LT : Q := 33 # 100.
Definition IB_MEDIUM_LE : Q := 1.

(** Day-type classification thresholds. *)
Definition IB_RATIO_WIDE : Q := 50 # 100.
Definition IB_RATIO_VERY_WIDE : Q := 80 # 100.
Definition IB_RATIO_TREND_SMALL : Q := 25 # 100.
Definition CLOSE_NEAR_EXTREME_LE : Q := 15 # 100.
Definition CLOSE_NEAR_MID_LE : Q := 30 # 100.

(** [classify_ib_size], lines 31-36. *)
Definition classify_ib_size (ib_pct : Q) : string :=
  if Qltb ib_pct IB_SMALL_LT then "Small"%string
  else if Qleb ib_pct IB_MEDIUM_LE then "Medium"%string
  else "Large"%string.

(** The metrics dictionary returned by [compute_ib_and_day_metrics]
    (lines 122-130), one field per key. *)
Record SessionMetrics : Type := mkMetrics {
  ib_high : Q;
  ib_low : Q;
  ib_range : Q;
  day_high : Q;
  day_low : Q;
  day_range : Q;
  open_915 : Q;
  close : Q;
  re_up : bool;
  re_down : bool;
  ib_pct : Q;
  ib_ratio : Q;
  close_pos_mid : Q;
  close_dist_from_extreme : Q
}.

(** [classify_day_type], lines 39-83: nine sequential guards. *)
Definition classify_day_type (m : SessionMetrics) : string :=
  let ib_ratio_ := ib_ratio m in
  let re_up_ := re_up m in
  let re_down_ := re_down m in
  let close_pos_mid_ := close_pos_mid m in
  let close_near_extreme :=
    Qleb (close_dist_from_extreme m) CLOSE_NEAR_EXTREME_LE in
  if re_up_ && re_down_ && Qleb close_pos_mid_ CLOSE_NEAR_MID_LE
  then "Neutral Center Day"%string
  else if re_up_ && re_down_ && close_near_extreme
  then "Neutral Extreme Day"%string
  else if Qgeb ib_ratio_ IB_RATIO_VERY_WIDE && negb re_up_ && negb re_down_
  then "Non-trend Day"%string
  else if Qgeb ib_ratio_ IB_RATIO_WIDE && negb re_up_ && negb re_down_
  then "Normal Day"%string
  else if Qgeb ib_ratio_ IB_RATIO_WIDE && xorb re_up_ re_down_
  then "Normal Variation Day"%string
  else if Qleb ib_ratio_ IB_RATIO_TREND_SMALL && xorb re_up_ re_down_
          && close_near_extreme
  then "Trend Day"%string
  else if re_up_ && re_down_
  then "Neutral Center Day"%string
  else if xorb re_up_ re_down_
  then "Normal Variation Day"%string
  else "Non-trend Day"%string.

(* ===================================================================== *)
(** ** [src/fetch_and_classify.py]: bars and data frames                *)
(* ===================================================================== *)

(** One row of the candle frame, columns
    [datetime, open, high, low, close, volume] (line 80).  [datetime] is
    the row's time of day in the exchange zone, in microseconds since
    midnight. *)
Module Bar.
Record t : Type := mk {
  datetime : Z;
  open : Q;
  high : Q;
  low : Q;
  close : Q;
  volume : Q
}.
End Bar.

(** A data frame is the list of its rows, in positional order. *)
Definition DataFrame : Type := list Bar.t.

(** [datetime.strptime("HH:MM", "%H:%M").time()]: a time of day, counted
    in microseconds since midnight (the resolution of [datetime.time]). *)
Definition hhmm (h m : Z) : Z := ((h * 3600 + m * 60) * 1000000)%Z.

(** NSE regular session times (lines 33-35). *)
Definition MARKET_OPEN : Z := hhmm 9 15.
Definition MARKET_CLOSE : Z := hhmm 15 30.
Definition IB_END : Z := hhmm 10 15.

(** *** Exceptions *)

Inductive exn : Type :=
| IndexError
| ZeroDivisionError
| EmptyReduction.

Inductive outcome (A : Type) : Type :=
| Raised (e : exn)
| Returned (a : A).
Arguments Raised {A} e.
Arguments Returned {A} a.

Definition bind {A B : Type} (c : outcome A) (k : A -> outcome B)
  : outcome B :=
  match c with
  | Raised e => Raised e
  | Returned a => k a
  end.

Notation "x <- c ;; k" := (bind c (fun x => k))
  (at level 61, c at next level, right associativity).

(** *** Frame and column operations *)

(** [df.empty]. *)
Definition empty {A : Type} (df : list A) : bool :=
  match df with
  | [] => true
  | _ :: _ => false
  end.

(** [df[mask]]: the rows at which the boolean mask holds, in order. *)
Definition select (mask : Bar.t -> bool) (df : DataFrame) : DataFrame :=
  filter mask df.

(** [df.iloc[i]]: positional lookup, a negative [i] counting from the
    end; out of range raises [IndexError]. *)
Definition iloc (df : DataFrame) (i : Z) : outcome Bar.t :=
  let n := Z.of_nat (List.length df) in
  let j := if (i <? 0)%Z then (n + i)%Z else i in
  if ((j <? 0)%Z || (n <=? j)%Z)%bool then Raised IndexError
  else match nth_error df (Z.to_nat j) with
       | Some b => Returned b
       | None => Raised IndexError
       end.

(** [col.max()] and [col.min()].  On an empty column pandas answers NaN,
    which no rational stands for: the model raises there. *)
Definition col_max (col : list Q) : outcome Q :=
  match col with
  | [] => Raised EmptyReduction
  | x :: xs => Returned (fold_left Qmax xs x)
  end.

Definition col_min (col : list Q) : outcome Q :=
  match col with
  | [] => Raised EmptyReduction
  | x :: xs => Returned (fold_left Qmin xs x)
  end.

(** [a / b], raising on a zero divisor. *)
Definition fdiv (a b : Q) : outcome Q :=
  if Qeq_bool b 0 then Raised ZeroDivisionError else Returned (a / b).

(** *** [fetch_day_candles], lines 77-84

    The part after the broker call: an absent or empty payload gives the
    empty frame, otherwise the rows are restricted to session hours. *)
Definition session_mask (b : Bar.t) : bool :=
  ((MARKET_OPEN <=? Bar.datetime b)%Z
   && (Bar.datetime b <=? MARKET_CLOSE)%Z)%bool.

Definition fetch_day_candles (data : list Bar.t) : DataFrame :=
  if empty data then [] else select session_mask data.

(** *** [compute_ib_and_day_metrics], lines 87-130 *)

Definition ib_mask (b : Bar.t) : bool :=
  ((MARKET_OPEN <=? Bar.datetime b)%Z
   && (Bar.datetime b <=? IB_END)%Z)%bool.

Definition open_mask (b : Bar.t) : bool :=
  (Bar.datetime b =? MARKET_OPEN)%Z.

Definition compute_ib_and_day_metrics (df : DataFrame)
  : outcome (option SessionMetrics) :=
  if empty df then Returned None else
  let ib_bars := select ib_mask df in
  if empty ib_bars then Returned None else
  ib_high_ <- col_max (map Bar.high ib_bars) ;;
  ib_low_ <- col_min (map Bar.low ib_bars) ;;
  let ib_range_ := ib_high_ - ib_low_ in
  day_high_ <- col_max (map Bar.high df) ;;
  day_low_ <- col_min (map Bar.low df) ;;
  let day_range_ := day_high_ - day_low_ in
  let open_915_row := select open_mask df in
  open_row <- (if empty open_915_row then iloc df 0
               else iloc open_915_row 0) ;;
  let open_915_ := Bar.open open_row in
  last_row <- iloc df (-1) ;;
  let close_ := Bar.close last_row in
  let re_up_ := Qgtb day_high_ ib_high_ in
  let re_down_ := Qltb day_low_ ib_low_ in
  ib_pct_ <- (if truthy open_915_
              then q <- fdiv ib_range_ open_915_ ;; Returned (q * 100)
              else Returned 0) ;;
  ib_ratio_ <- (if truthy day_range_ then fdiv ib_range_ day_range_
                else Returned 0) ;;
  let mid := (day_high_ + day_low_) / 2 in
  close_pos_mid_ <- (if truthy day_range_
                     then fdiv (Qabs (close_ - mid)) day_range_
                     else Returned 0) ;;
  close_dist_ <- (if truthy day_range_
                  then fdiv (Qmin (Qabs (close_ - day_low_))
                                  (Qabs (close_ - day_high_))) day_range_
                  else Returned 1) ;;
  Returned (Some {|
    ib_high := ib_high_; ib_low := ib_low_; ib_range := ib_range_;
    day_high := day_high_; day_low := day_low_; day_range := day_range_;
    open_915 := open_915_; close := close_;
    re_up := re_up_; re_down := re_down_;
    ib_pct := ib_pct_; ib_ratio := ib_ratio_;
    close_pos_mid := close_pos_mid_;
    close_dist_from_extreme := close_dist_ |}).

(** The two calls of the per-day loop body of [compute_stats]
    (lines 161-164): fetch, then extract. *)
Definition day_metrics (data : list Bar.t) : outcome (option SessionMetrics) :=
  compute_ib_and_day_metrics (fetch_day_candles data).

(* ===================================================================== *)
(** ** The specification's vocabulary                                   *)
(* ===================================================================== *)

(** *** The ordered rule table of the design document (section 4.3)

    A rule is a guard and a label; the table is read top to bottom and
    the first rule whose guard holds gives the label. *)
Definition rule : Type := ((SessionMetrics -> bool) * string)%type.

Definition both_extensions (m : SessionMetrics) : bool :=
  re_up m && re_down m.

Definition no_extension (m : SessionMetrics) : bool :=
  negb (re_up m) && negb (re_down m).

Definition one_extension (m : SessionMetrics) : bool :=
  xorb (re_up m) (re_down m).

Definition rule_table : list rule :=
  [ (fun m => both_extensions m && Qleb (close_pos_mid m) (30 # 100),
     "Neutral Center Day"%string);
    (fun m => both_extensions m
              && Qleb (close_dist_from_extreme m) (15 # 100),
     "Neutral Extreme Day"%string);
    (fun m => Qleb (80 # 100) (ib_ratio m) && no_extension m,
     "Non-trend Day"%string);
    (fun m => Qleb (50 # 100) (ib_ratio m) && no_extension m,
     "Normal Day"%string);
    (fun m => Qleb (50 # 100) (ib_ratio m) && one_extension m,
     "Normal Variation Day"%string);
    (fun m => Qleb (ib_ratio m) (25 # 100) && one_extension m
              && Qleb (close_dist_from_extreme m) (15 # 100),
     "Trend Day"%string);
    (fun m => both_extensions m, "Neutral Center Day"%string);
    (fun m => one_extension m, "Normal Variation Day"%string);
    (fun _ => true, "Non-trend Day"%string) ].

Fixpoint first_match (rules : list rule) (m : SessionMetrics)
  : option string :=
  match rules with
  | [] => None
  | (guard, label) :: rest =>
      if guard m then Some label else first_match rest m
  end.

(** The six labels of the enumeration. *)
Definition day_type_labels : list string :=
  [ "Normal Day"; "Normal Variation Day"; "Trend Day";
    "Neutral Center Day"; "Neutral Extreme Day"; "Non-trend Day" ]%string.

(** *** Windows of the trading day *)

(** The session window [[MARKET_OPEN, MARKET_CLOSE]]. *)
Definition in_session (b : Bar.t) : Prop :=
  (MARKET_OPEN <= Bar.datetime b <= MARKET_CLOSE)%Z.

(** The Initial Balance window [[MARKET_OPEN, IB_END]]. *)
Definition in_ib_window (b : Bar.t) : Prop :=
  (MARKET_OPEN <= Bar.datetime b <= IB_END)%Z.

Definition in_session_dec (b : Bar.t) : {in_session b} + {~ in_session b}.
Proof.
  unfold in_session.
  destruct (Z_le_dec MARKET_OPEN (Bar.datetime b)) as [H1|H1];
    destruct (Z_le_dec (Bar.datetime b) MARKET_CLOSE) as [H2|H2];
    solve [ left; split; assumption | right; intros [? ?]; contradiction ].
Defined.

(** A bar sequence restricted to session hours. *)
Fixpoint restrict_to_session (data : list Bar.t) : list Bar.t :=
  match data with
  | [] => []
  | b :: rest =>
      if in_session_dec b then b :: restrict_to_session rest
      else restrict_to_session rest
  end.

(** *** Physical bars and time order *)

(** A bar's low is not above its high. *)
Definition low_le_high (b : Bar.t) : Prop := Bar.low b <= Bar.high b.

(** The bar invariant: open and close lie between low and high. *)
Definition physical_bar (b : Bar.t) : Prop :=
  Bar.low b <= Bar.open b /\ Bar.open b <= Bar.high b /\
  Bar.low b <= Bar.close b /\ Bar.close b <= Bar.high b.




(** The record the extractor builds once both emptiness checks have
    passed: [b0 :: rest] is the frame, [i0 :: irest] its IB rows. *)
Definition metrics_of (b0 : Bar.t) (rest : list Bar.t)
                      (i0 : Bar.t) (irest : list Bar.t)
  : SessionMetrics :=
  let ib_high_ := fold_left Qmax (map Bar.high irest) (Bar.high i0) in
  let ib_low_ := fold_left Qmin (map Bar.low irest) (Bar.low i0) in
  let ib_range_ := ib_high_ - ib_low_ in
  let day_high_ := fold_left Qmax (map Bar.high rest) (Bar.high b0) in
  let day_low_ := fold_left Qmin (map Bar.low rest) (Bar.low b0) in
  let day_range_ := day_high_ - day_low_ in
  let open_915_ :=
    Bar.open (hd b0 (select open_mask (b0 :: rest))) in
  let close_ := Bar.close (last rest b0) in
  let mid := (day_high_ + day_low_) / 2 in
  {| ib_high := ib_high_; ib_low := ib_low_; ib_range := ib_range_;
     day_high := day_high_; day_low := day_low_; day_range := day_range_;
     open_915 := open_915_; close := close_;
     re_up := Qgtb day_high_ ib_high_;
     re_down := Qltb day_low_ ib_low_;
     ib_pct := if truthy open_915_
               then ib_range_ / open_915_ * 100 else 0;
     ib_ratio := if truthy day_range_
                 then ib_range_ / day_range_ else 0;
     close_pos_mid := if truthy day_range_
                      then Qabs (close_ - mid) / day_range_ else 0;
     close_dist_from_extreme :=
       if truthy day_range_
       then Qmin (Qabs (close_ - day_low_)) (Qabs (close_ - day_high_))
            / day_range_
       else 1 |}.

(** Sample frames. *)
Definition bar (t : Z) (o h l c : Q) : Bar.t := Bar.mk t o h l c 0.

(** Three bars: the open, the end of the IB hour, the close. *)
Definition sample_day : DataFrame :=
  [ bar (hhmm 9 15) 100 105 95 101; bar (hhmm 10 15) 101 110 100 108;
    bar (hhmm 15 30) 108 112 107 111 ].

(** A motionless day. *)
Definition flat_day : DataFrame :=
  [ bar (hhmm 9 15) 100 100 100 100; bar (hhmm 11 0) 100 100 100 100 ].

(** Bars exist, none in the IB hour. *)
Definition late_day : DataFrame :=
  [ bar (hhmm 11 0) 100 101 99 100; bar (hhmm 15 30) 100 102 100 101 ].


(* ===================================================================== *)
(** ** [src/fetch_and_classify.py]: the scan over days                  *)
(* ===================================================================== *)

(** A calendar date is its proleptic Gregorian ordinal
    ([date.toordinal()]); [timedelta(n)] adds [n] to it. *)
Definition range (n : Z) : list Z := map Z.of_nat (seq 0 (Z.to_nat n)).

(** [daterange], lines 133-135: the dates the generator yields, in
    order. *)
Definition daterange (start end_ : Z) : list Z :=
  map (fun n => start + n)%Z (range (end_ - start + 1)).

(** [date.weekday()]: Monday is 0 and Sunday is 6. *)
Definition weekday (d : Z) : Z := ((d + 6) mod 7)%Z.

(** [is_weekend], lines 138-139. *)
Definition is_weekend (d : Z) : bool := (5 <=? weekday d)%Z.

(** The index table (lines 27-30), in insertion order. *)
Record IndexMeta : Type := mkMeta {
  exchange : string;
  symboltoken : string;
  trading_symbol : string
}.

Definition INDICES : list (string * IndexMeta) :=
  [ ("NIFTY_50", mkMeta "NSE" "99926000" "Nifty 50");
    ("NIFTY_BANK", mkMeta "NSE" "99926009" "Nifty Bank") ]%string.

(** The broker's historical-candle call, as the rows it answers for an
    exchange, a token, a day and an interval. *)
Definition Broker : Type := string -> string -> Z -> string -> list Bar.t.

(** One row of the result table (lines 170-178).  [date] is kept as the
    date itself where the source stores its ISO rendering. *)
Module DayRow.
Record t : Type := mk {
  date : Z;
  index : string;
  day_type : string;
  ib_size : string;
  ib_pct : Q;
  ib_ratio : Q;
  day_range : Q
}.
End DayRow.

(** The body of the inner loop of [compute_stats] (lines 159-179) for one
    index and one day: the row to append, or [None] where the source
    says [continue]. *)
Definition classify_day (broker : Broker) (interval : string)
    (index_name : string) (meta : IndexMeta) (d : Z)
  : outcome (option DayRow.t) :=
  if is_weekend d then Returned None else
  let df :=
    fetch_day_candles (broker (exchange meta) (symboltoken meta) d interval) in
  if empty df then Returned None else
  metrics <- compute_ib_and_day_metrics df ;;
  match metrics with
  | None => Returned None
  | Some m =>
      let ib_size_ := classify_ib_size (ib_pct m) in
      let day_type_ := classify_day_type m in
      Returned (Some {|
        DayRow.date := d; DayRow.index := index_name;
        DayRow.day_type := day_type_; DayRow.ib_size := ib_size_;
        DayRow.ib_pct := ib_pct m; DayRow.ib_ratio := ib_ratio m;
        DayRow.day_range := day_range m |})
  end.

(** The inner [for d in daterange(...)] loop, threading [records]. *)
Fixpoint scan_days (broker : Broker) (interval : string)
    (index_name : string) (meta : IndexMeta)
    (days : list Z) (records : list DayRow.t) : outcome (list DayRow.t) :=
  match days with
  | [] => Returned records
  | d :: rest =>
      r <- classify_day broker interval index_name meta d ;;
      scan_days broker interval index_name meta rest
        (match r with
         | None => records
         | Some row => records ++ [row]
         end)
  end.

(** The outer [for index_name, meta in INDICES.items()] loop. *)
Fixpoint scan_indices (broker : Broker) (interval : string)
    (indices : list (string * IndexMeta)) (days : list Z)
    (records : list DayRow.t) : outcome (list DayRow.t) :=
  match indices with
  | [] => Returned records
  | (index_name, meta) :: rest =>
      records' <- scan_days broker interval index_name meta days records ;;
      scan_indices broker interval rest days records'
  end.

(** [compute_stats], lines 142-190, from the settings it reads
    ([INTERVAL], [YEARS_BACK]) and today's date: the table it returns,
    [None] when no row was collected. *)
Definition compute_stats (broker : Broker) (interval : string)
    (years_back : Z) (today : Z) : outcome (option (list DayRow.t)) :=
  let end_date := today in
  let start_date := (end_date - years_back * 365)%Z in
  let start_date := (start_date + 1)%Z in
  records <- scan_indices broker interval INDICES
               (daterange start_date end_date) [] ;;
  if empty records then Returned None else Returned (Some records).

(** The rows one index and one day contribute: one or none. *)
Definition day_rows (broker : Broker) (interval : string)
    (index_name : string) (meta : IndexMeta) (d : Z) : list DayRow.t :=
  match classify_day broker interval index_name meta d with
  | Returned (Some row) => [row]
  | _ => []
  end.

(** The key of a row of the result table. *)
Definition row_key (r : DayRow.t) : string * Z :=
  (DayRow.index r, DayRow.date r).

(** A payload with a bar in the Initial Balance window. *)
Definition has_ib_bar (data : list Bar.t) : Prop :=
  exists b, In b data /\ in_ib_window b.

(** The three IB size labels. *)
Definition ib_size_labels : list string :=
  [ "Small"; "Medium"; "Large" ]%string.

(** A broker that answers the sample day on one Wednesday and nothing
    on any other day. *)
Definition one_day_broker : Broker :=
  fun _ _ d _ => if (d =? 739000)%Z then sample_day else [].

(* ===================================================================== *)
(** ** [src/fetch_zerodha_data.py]: the chunked download                *)
(* ===================================================================== *)

Module Zerodha.

(** One candle of a response: its timestamp, in microseconds, and the
    rest of the row (open, high, low, close, volume and, for F&O, open
    interest). *)
Record Candle : Type := mkCandle {
  date : Z;
  values : list Q
}.

(** [timedelta(days=n)]. *)
Definition timedelta_days (n : Z) : Z := (n * 86400000000)%Z.

(** [ZerodhaDataFetcher.fetch_data] for a fixed token, timeframe and
    [oi] flag, as the frame it answers for a start and an end instant
    (the empty frame on a failed request or an empty response). *)
Definition Fetcher : Type := Z -> Z -> list Candle.

(** The state of the [while current_start < end_date] loop of
    [fetch_bulk_data] (lines 159-182): the requests sent so far, as
    (from, to) pairs in order, and [all_data]. *)
Record LoopState : Type := mkState {
  requests : list (Z * Z);
  all_data : list (list Candle)
}.

(** The loop, driven by fuel: [None] when the fuel runs out before the
    loop condition fails. *)
Fixpoint bulk_loop (fetch_data : Fetcher) (fuel : nat)
    (current_start end_date chunk_days : Z) (st : LoopState)
  : option LoopState :=
  match fuel with
  | O => None
  | S fuel' =>
      if (current_start <? end_date)%Z then
        let current_end :=
          Z.min (current_start + timedelta_days chunk_days) end_date in
        let df := fetch_data current_start current_end in
        let st' :=
          {| requests := requests st ++ [(current_start, current_end)];
             all_data := if empty df then all_data st
                         else all_data st ++ [df] |} in
        bulk_loop fetch_data fuel' current_end end_date chunk_days st'
      else Some st
  end.

(** [df.drop_duplicates(subset=['date'])]: the first row of each
    timestamp is kept. *)
Fixpoint drop_from (seen : list Z) (rows : list Candle) : list Candle :=
  match rows with
  | [] => []
  | r :: rest =>
      if existsb (Z.eqb (date r)) seen then drop_from seen rest
      else r :: drop_from (date r :: seen) rest
  end.

Definition drop_duplicates (rows : list Candle) : list Candle :=
  drop_from [] rows.

(** [df.sort_values('date')], by insertion. *)
Fixpoint insert_by_date (r : Candle) (sorted : list Candle) : list Candle :=
  match sorted with
  | [] => [r]
  | x :: rest =>
      if (date r <=? date x)%Z then r :: x :: rest
      else x :: insert_by_date r rest
  end.

Fixpoint sort_values (rows : list Candle) : list Candle :=
  match rows with
  | [] => []
  | r :: rest => insert_by_date r (sort_values rest)
  end.

(** [fetch_bulk_data], lines 124-198: the defaults for the two ends of
    the range ([first_day] stands for 2015-01-01 and [now] for the
    current instant), the loop, then concatenation, deduplication and
    sorting.  The result is the requests sent and the frame returned. *)
Definition fetch_bulk_data (fetch_data : Fetcher) (fuel : nat)
    (first_day now : Z) (start_date end_date : option Z) (chunk_days : Z)
  : option (list (Z * Z) * list Candle) :=
  let start_date :=
    match start_date with None => first_day | Some s => s end in
  let end_date :=
    match end_date with None => now | Some e => e end in
  match bulk_loop fetch_data fuel start_date end_date chunk_days
          (mkState [] []) with
  | None => None
  | Some st =>
      Some (requests st,
            if empty (all_data st) then []
            else sort_values (drop_duplicates (List.concat (all_data st))))
  end.

(** Rows in strictly increasing order of timestamp. *)
Definition before (a b : Candle) : Prop := (date a < date b)%Z.

(** What [all_data] holds is what the requests sent were answered. *)
Definition answered (fetch_data : Fetcher) (st : LoopState) : Prop :=
  forall r,
    In r (List.concat (all_data st)) <->
    exists q, In q (requests st) /\ In r (fetch_data (fst q) (snd q)).

(** A fetcher that answers the two ends of the request, as candles. *)
Definition ends_fetcher : Fetcher :=
  fun a b => [mkCandle b []; mkCandle a []].

End Zerodha.

(* ===================================================================== *)
(** ** [src/viz_dashboard.py]: percentage tables and heatmaps           *)
(* ===================================================================== *)

Module Viz.















End Viz.







(* ===================================================================== *)
(** ** Comparison lemmas                                                *)
(* ===================================================================== *)

Lemma Qleb_le a b : Qleb a b = true <-> a <= b.
Proof. unfold Qleb. apply Qle_bool_iff. Qed.

Lemma Qleb_gt a b : Qleb a b = false <-> b < a.
Proof.
  unfold Qleb. split; intro H.
  - apply Qnot_le_lt. intro Hle. apply Qle_bool_iff in Hle. congruence.
  - destruct (Qle_bool a b) eqn:E; [|reflexivity].
    apply Qle_bool_iff in E. exfalso. apply (Qlt_not_le _ _ H E).
Qed.

Lemma Qltb_lt a b : Qltb a b = true <-> a < b.
Proof.
  unfold Qltb. rewrite negb_true_iff. apply (Qleb_gt b a).
Qed.

Lemma Qltb_ge a b : Qltb a b = false <-> b <= a.
Proof.
  unfold Qltb. rewrite negb_false_iff. apply (Qleb_le b a).
Qed.

Lemma truthy_false x : truthy x = false <-> x == 0.
Proof.
  unfold truthy. rewrite negb_false_iff. apply Qeq_bool_iff.
Qed.

Lemma truthy_true x : truthy x = true <-> ~ x == 0.
Proof.
  unfold truthy. rewrite negb_true_iff. split; intro H.
  - intro E. apply Qeq_bool_iff in E. congruence.
  - destruct (Qeq_bool x 0) eqn:E; [|reflexivity].
    apply Qeq_bool_iff in E. contradiction.
Qed.

Lemma Qleb_compat a a' b b' : a == a' -> b == b' -> Qleb a b = Qleb a' b'.
Proof.
  intros Ha Hb.
  destruct (Qleb a b) eqn:E1; destruct (Qleb a' b') eqn:E2; try reflexivity.
  - apply Qleb_le in E1. apply Qleb_gt in E2. rewrite Ha, Hb in E1. lra.
  - apply Qleb_gt in E1. apply Qleb_le in E2. rewrite Ha, Hb in E1. lra.
Qed.


(* ===================================================================== *)
(** ** Running the extractor                                            *)
(* ===================================================================== *)

Lemma iloc_first b rest : iloc (b :: rest) 0 = Returned b.
Proof.
  unfold iloc. cbn [List.length].
  replace (Z.of_nat (S (List.length rest)) <=? 0)%Z with false
    by (symmetry; apply Z.leb_gt; lia).
  reflexivity.
Qed.

Lemma last_cons (c : Bar.t) rest b : last (c :: rest) b = last rest c.
Proof.
  revert c b. induction rest as [|d rest IH]; intros c b.
  - reflexivity.
  - change (last (c :: d :: rest) b) with (last (d :: rest) b).
    rewrite (IH d b), (IH d c). reflexivity.
Qed.

Lemma nth_error_last (b : Bar.t) rest :
  nth_error (b :: rest) (List.length rest) = Some (last rest b).
Proof.
  revert b. induction rest as [|c rest IH]; intro b.
  - reflexivity.
  - cbn [List.length nth_error]. rewrite IH, last_cons. reflexivity.
Qed.

Lemma iloc_last b rest : iloc (b :: rest) (-1) = Returned (last rest b).
Proof.
  unfold iloc. cbn [List.length Z.ltb Z.compare].
  set (n := Z.of_nat (S (List.length rest))).
  assert (Hn : (n + -1)%Z = Z.of_nat (List.length rest)) by (unfold n; lia).
  rewrite Hn.
  replace (Z.of_nat (List.length rest) <? 0)%Z with false
    by (symmetry; apply Z.ltb_ge; lia).
  replace (n <=? Z.of_nat (List.length rest))%Z with false
    by (symmetry; apply Z.leb_gt; unfold n; lia).
  cbn [orb]. rewrite Nat2Z.id, nth_error_last. reflexivity.
Qed.

Lemma open_row_found b0 rest :
  (if empty (select open_mask (b0 :: rest)) then iloc (b0 :: rest) 0
   else iloc (select open_mask (b0 :: rest)) 0)
  = Returned (hd b0 (select open_mask (b0 :: rest))).
Proof.
  destruct (select open_mask (b0 :: rest)) as [|o os] eqn:E.
  - cbn [empty hd]. apply iloc_first.
  - cbn [empty hd]. apply iloc_first.
Qed.

Lemma guarded_fdiv a x c :
  (if truthy x then fdiv a x else Returned c)
  = Returned (if truthy x then a / x else c).
Proof.
  unfold truthy, fdiv. destruct (Qeq_bool x 0); reflexivity.
Qed.

Lemma guarded_pct a x :
  (if truthy x then q <- fdiv a x ;; Returned (q * 100) else Returned 0)
  = Returned (if truthy x then a / x * 100 else 0).
Proof.
  unfold truthy, fdiv. destruct (Qeq_bool x 0); reflexivity.
Qed.

(** Past the two emptiness checks the extractor returns the record
    [metrics_of], and nothing on the way raises. *)
Lemma compute_returns b0 rest i0 irest :
  select ib_mask (b0 :: rest) = i0 :: irest ->
  compute_ib_and_day_metrics (b0 :: rest)
  = Returned (Some (metrics_of b0 rest i0 irest)).
Proof.
  intro Hib. unfold compute_ib_and_day_metrics.
  cbn [empty]. rewrite Hib. cbn [empty map col_max col_min bind].
  rewrite open_row_found. cbn [bind].
  rewrite iloc_last. cbn [bind].
  rewrite guarded_pct. cbn [bind].
  rewrite !guarded_fdiv. cbn [bind].
  reflexivity.
Qed.

(** The three ways the extractor can go, by the shape of its input. *)
Lemma compute_cases df :
  (df = [] /\ compute_ib_and_day_metrics df = Returned None) \/
  (select ib_mask df = [] /\ compute_ib_and_day_metrics df = Returned None) \/
  (exists b0 rest i0 irest,
      df = b0 :: rest /\ select ib_mask df = i0 :: irest /\
      compute_ib_and_day_metrics df
      = Returned (Some (metrics_of b0 rest i0 irest))).
Proof.
  destruct df as [|b0 rest].
  - left. split; reflexivity.
  - destruct (select ib_mask (b0 :: rest)) as [|i0 irest] eqn:Hib.
    + right; left. split; [reflexivity|].
      unfold compute_ib_and_day_metrics. cbn [empty]. rewrite Hib.
      reflexivity.
    + right; right. exists b0, rest, i0, irest.
      split; [reflexivity|]. split; [reflexivity|].
      apply compute_returns. exact Hib.
Qed.

Lemma compute_some_inv df m :
  compute_ib_and_day_metrics df = Returned (Some m) ->
  exists b0 rest i0 irest,
    df = b0 :: rest /\ select ib_mask df = i0 :: irest /\
    m = metrics_of b0 rest i0 irest.
Proof.
  intro H.
  destruct (compute_cases df)
    as [[_ E]|[[_ E]|(b0 & rest & i0 & irest & Hd & Hi & E)]];
    rewrite E in H; try discriminate.
  exists b0, rest, i0, irest. repeat split; try assumption.
  congruence.
Qed.

Lemma ib_mask_window b : ib_mask b = true <-> in_ib_window b.
Proof.
  unfold ib_mask, in_ib_window.
  rewrite andb_true_iff, !Z.leb_le. reflexivity.
Qed.

Lemma session_mask_window b : session_mask b = true <-> in_session b.
Proof.
  unfold session_mask, in_session.
  rewrite andb_true_iff, !Z.leb_le. reflexivity.
Qed.

Lemma select_nil_iff mask df :
  select mask df = [] <-> forall b, In b df -> mask b = false.
Proof.
  unfold select. induction df as [|a df IH]; cbn [filter].
  - split; [intros _ b []|reflexivity].
  - destruct (mask a) eqn:E.
    + split; [discriminate|].
      intro H. specialize (H a (or_introl eq_refl)). congruence.
    + rewrite IH. split.
      * intros H b [<-|Hb]; [exact E|apply H, Hb].
      * intros H b Hb. apply H. right. exact Hb.
Qed.

(* ===================================================================== *)
(** ** The classifiers                                                  *)
(* ===================================================================== *)

Ltac split_guards :=
  repeat match goal with
         | |- context [Qleb ?a ?b] =>
             let E := fresh "E" in destruct (Qleb a b) eqn:E
         end.

Ltac unfold_thresholds :=
  unfold IB_SMALL_LT, IB_MEDIUM_LE, IB_RATIO_WIDE, IB_RATIO_VERY_WIDE,
    IB_RATIO_TREND_SMALL, CLOSE_NEAR_EXTREME_LE, CLOSE_NEAR_MID_LE in *.

(** The label depends on the two flags and five threshold tests only. *)
Lemma classify_day_type_guards m :
  classify_day_type m =
  let up := re_up m in
  let down := re_down m in
  let near_mid := Qleb (close_pos_mid m) (30 # 100) in
  let near_extreme := Qleb (close_dist_from_extreme m) (15 # 100) in
  let very_wide := Qleb (80 # 100) (ib_ratio m) in
  let wide := Qleb (50 # 100) (ib_ratio m) in
  let small := Qleb (ib_ratio m) (25 # 100) in
  if up && down && near_mid then "Neutral Center Day"%string
  else if up && down && near_extreme then "Neutral Extreme Day"%string
  else if very_wide && negb up && negb down then "Non-trend Day"%string
  else if wide && negb up && negb down then "Normal Day"%string
  else if wide && xorb up down then "Normal Variation Day"%string
  else if small && xorb up down && near_extreme then "Trend Day"%string
  else if up && down then "Neutral Center Day"%string
  else if xorb up down then "Normal Variation Day"%string
  else "Non-trend Day"%string.
Proof. reflexivity. Qed.

(** C1.  [classify_day_type] is the nine-rule table of section 4.3 read
    first-match-wins: for every metrics record the table yields a label
    and it is the one the function returns; that label is one of the six
    day types. *)
Theorem classify_day_type_rule_table (m : SessionMetrics) :
  first_match rule_table m = Some (classify_day_type m) /\
  In (classify_day_type m) day_type_labels.
Proof.
  rewrite classify_day_type_guards.
  unfold rule_table, first_match, both_extensions, no_extension,
    one_extension, day_type_labels.
  cbv zeta.
  destruct (re_up m), (re_down m); split_guards; cbn;
    (split; [reflexivity | tauto]).
Qed.

(** C2.  [classify_ib_size] splits the line into three bands that meet
    at 0.33 and 1.00 without gap or overlap: Small exactly below 0.33,
    Medium exactly on [0.33, 1.00], Large exactly above 1.00; both
    boundary points are Medium. *)
Theorem classify_ib_size_bands (x : Q) :
  (classify_ib_size x = "Small"%string <-> x < 33 # 100) /\
  (classify_ib_size x = "Medium"%string <-> 33 # 100 <= x /\ x <= 1) /\
  (classify_ib_size x = "Large"%string <-> 1 < x) /\
  classify_ib_size (33 # 100) = "Medium"%string /\
  classify_ib_size 1 = "Medium"%string.
Proof.
  unfold classify_ib_size. unfold_thresholds.
  destruct (Qltb x (33 # 100)) eqn:E1; [|destruct (Qleb x 1) eqn:E2].
  - apply Qltb_lt in E1.
    repeat split; try reflexivity; try discriminate; try lra;
      intros; exfalso; lra.
  - apply Qltb_ge in E1. apply Qleb_le in E2.
    repeat split; try reflexivity; try discriminate; try lra;
      intros; exfalso; lra.
  - apply Qltb_ge in E1. apply Qleb_gt in E2.
    repeat split; try reflexivity; try discriminate; try lra;
      intros; exfalso; lra.
Qed.

(** C7.  In the gap [0.25 < ib_ratio < 0.50], with exactly one extension
    and a close within 0.15 of an extreme, the label is Normal Variation
    Day, whatever the distance of the close from the middle. *)
Theorem gap_is_normal_variation (m : SessionMetrics) :
  25 # 100 < ib_ratio m ->
  ib_ratio m < 50 # 100 ->
  xorb (re_up m) (re_down m) = true ->
  close_dist_from_extreme m <= 15 # 100 ->
  classify_day_type m = "Normal Variation Day"%string.
Proof.
  intros Hlo Hhi Hx Hclose.
  rewrite classify_day_type_guards. cbv zeta.
  assert (E80 : Qleb (80 # 100) (ib_ratio m) = false)
    by (apply Qleb_gt; lra).
  assert (E50 : Qleb (50 # 100) (ib_ratio m) = false)
    by (apply Qleb_gt; lra).
  assert (E25 : Qleb (ib_ratio m) (25 # 100) = false)
    by (apply Qleb_gt; lra).
  rewrite E80, E50, E25, Hx.
  destruct (re_up m), (re_down m); try discriminate; reflexivity.
Qed.

Lemma gap_is_normal_variation_witness :
  classify_day_type
    (mkMetrics 110 100 10 125 100 25 100 124 true false 10
               (40 # 100) (46 # 100) (4 # 100))
  = "Normal Variation Day"%string.
Proof.
  apply gap_is_normal_variation; cbn;
    solve [reflexivity | unfold Qlt, Qle; cbn; lia].
Defined.

(** C10.  [classify_day_type] reads five fields only: two records with
    the same flags and with equal [ib_ratio], [close_pos_mid] and
    [close_dist_from_extreme] get the same label, whatever their other
    nine fields. *)
Theorem classify_day_type_five_fields (m1 m2 : SessionMetrics) :
  ib_ratio m1 == ib_ratio m2 ->
  re_up m1 = re_up m2 ->
  re_down m1 = re_down m2 ->
  close_pos_mid m1 == close_pos_mid m2 ->
  close_dist_from_extreme m1 == close_dist_from_extreme m2 ->
  classify_day_type m1 = classify_day_type m2.
Proof.
  intros Hr Hu Hd Hm He.
  rewrite !classify_day_type_guards. cbv zeta.
  rewrite Hu, Hd.
  rewrite (Qleb_compat _ _ _ _ Hm (Qeq_refl _)).
  rewrite (Qleb_compat _ _ _ _ He (Qeq_refl _)).
  rewrite (Qleb_compat _ _ _ _ (Qeq_refl (80 # 100)) Hr).
  rewrite (Qleb_compat _ _ _ _ (Qeq_refl (50 # 100)) Hr).
  rewrite (Qleb_compat _ _ _ _ Hr (Qeq_refl (25 # 100))).
  reflexivity.
Qed.

Lemma classify_day_type_five_fields_witness :
  classify_day_type
    (mkMetrics 110 100 10 125 100 25 100 124 true false 10
               (2 # 5) (46 # 100) (4 # 100))
  = classify_day_type
      (mkMetrics 7 3 4 9 1 8 5 6 true false 80
                 (4 # 10) (23 # 50) (1 # 25)).
Proof.
  apply classify_day_type_five_fields; cbn;
    solve [reflexivity | unfold Qeq; cbn; lia].
Defined.

(* ===================================================================== *)
(** ** The extractor's outcomes                                         *)
(* ===================================================================== *)

Lemma no_ib_bar_iff df :
  select ib_mask df = [] <-> forall b, In b df -> ~ in_ib_window b.
Proof.
  rewrite select_nil_iff. split; intros H b Hb.
  - intro Hw. apply ib_mask_window in Hw. rewrite (H b Hb) in Hw.
    discriminate.
  - destruct (ib_mask b) eqn:E; [|reflexivity].
    exfalso. apply (H b Hb). apply ib_mask_window. exact E.
Qed.

(** C3.  The extractor returns the no-metrics sentinel exactly when the
    frame is empty or none of its bars lies in the Initial Balance window;
    on every other frame it returns a metrics record; and on no frame at
    all does it raise. *)
Theorem compute_none_iff_insufficient_data (df : DataFrame) :
  (compute_ib_and_day_metrics df = Returned None <->
   df = [] \/ forall b, In b df -> ~ in_ib_window b) /\
  (df <> [] -> (exists b, In b df /\ in_ib_window b) ->
   exists m, compute_ib_and_day_metrics df = Returned (Some m)) /\
  (forall e, compute_ib_and_day_metrics df <> Raised e).
Proof.
  destruct (compute_cases df)
    as [[Hd E]|[[Hi E]|(b0 & rest & i0 & irest & Hd & Hi & E)]].
  - repeat split.
    + intros _. left. exact Hd.
    + intros _. exact E.
    + intro Hne. contradiction.
    + intros e He. rewrite E in He. discriminate.
  - repeat split.
    + intros _. right. apply no_ib_bar_iff. exact Hi.
    + intros _. exact E.
    + intros _ (b & Hb & Hw). exfalso.
      revert Hw. apply (proj1 (no_ib_bar_iff df) Hi b Hb).
    + intros e He. rewrite E in He. discriminate.
  - assert (Hsome : exists b, In b df /\ in_ib_window b).
    { exists i0. assert (Hin : In i0 (select ib_mask df))
        by (rewrite Hi; left; reflexivity).
      unfold select in Hin. apply filter_In in Hin.
      destruct Hin as [Hin Hm]. split; [exact Hin|].
      apply ib_mask_window. exact Hm. }
    repeat split.
    + intro H. rewrite E in H. discriminate.
    + intros [H|H].
      * rewrite Hd in H. discriminate.
      * exfalso. destruct Hsome as (b & Hb & Hw). exact (H b Hb Hw).
    + intros _ _. eexists. exact E.
    + intros e He. rewrite E in He. discriminate.
Qed.

Lemma compute_none_iff_insufficient_data_witness :
  (exists m, compute_ib_and_day_metrics sample_day = Returned (Some m)) /\
  compute_ib_and_day_metrics late_day = Returned None /\
  compute_ib_and_day_metrics [] = Returned None.
Proof.
  split; [|split].
  - apply (proj1 (proj2 (compute_none_iff_insufficient_data sample_day))).
    + discriminate.
    + exists (bar (hhmm 9 15) 100 105 95 101). split.
      * left. reflexivity.
      * unfold in_ib_window. cbn. lia.
  - apply (proj1 (compute_none_iff_insufficient_data late_day)).
    right. intros b Hb. unfold in_ib_window.
    destruct Hb as [<-|[<-|[]]]; cbn; lia.
  - apply (proj1 (compute_none_iff_insufficient_data [])).
    left. reflexivity.
Defined.

(* ===================================================================== *)
(** ** Column maxima and minima                                         *)
(* ===================================================================== *)

Lemma fold_max_ge xs : forall a x, x <= a -> x <= fold_left Qmax xs a.
Proof.
  induction xs as [|z xs IH]; intros a x Hx; cbn [fold_left].
  - exact Hx.
  - apply IH. eapply Qle_trans; [exact Hx|]. apply Q.le_max_l.
Qed.

Lemma fold_min_le xs : forall a x, a <= x -> fold_left Qmin xs a <= x.
Proof.
  induction xs as [|z xs IH]; intros a x Hx; cbn [fold_left].
  - exact Hx.
  - apply IH. eapply Qle_trans; [|exact Hx]. apply Q.le_min_l.
Qed.

Lemma col_max_upper x xs y :
  In y (x :: xs) -> y <= fold_left Qmax xs x.
Proof.
  revert x. induction xs as [|z xs IH]; intros x [<-|Hy].
  - apply Qle_refl.
  - destruct Hy.
  - apply fold_max_ge, Qle_refl.
  - cbn [fold_left]. destruct Hy as [<-|Hy].
    + apply fold_max_ge, Q.le_max_r.
    + apply IH. right. exact Hy.
Qed.

Lemma col_min_lower x xs y :
  In y (x :: xs) -> fold_left Qmin xs x <= y.
Proof.
  revert x. induction xs as [|z xs IH]; intros x [<-|Hy].
  - apply Qle_refl.
  - destruct Hy.
  - apply fold_min_le, Qle_refl.
  - cbn [fold_left]. destruct Hy as [<-|Hy].
    + apply fold_min_le, Q.le_min_r.
    + apply IH. right. exact Hy.
Qed.

Lemma col_max_least x xs u :
  (forall y, In y (x :: xs) -> y <= u) -> fold_left Qmax xs x <= u.
Proof.
  revert x. induction xs as [|z xs IH]; intros x H; cbn [fold_left].
  - apply H. left. reflexivity.
  - apply IH. intros y [<-|Hy].
    + apply Q.max_lub; apply H; [left|right; left]; reflexivity.
    + apply H. right. right. exact Hy.
Qed.

Lemma col_min_greatest x xs u :
  (forall y, In y (x :: xs) -> u <= y) -> u <= fold_left Qmin xs x.
Proof.
  revert x. induction xs as [|z xs IH]; intros x H; cbn [fold_left].
  - apply H. left. reflexivity.
  - apply IH. intros y [<-|Hy].
    + apply Q.min_glb; apply H; [left|right; left]; reflexivity.
    + apply H. right. right. exact Hy.
Qed.

(** The columns of a frame, row by row. *)
Lemma high_upper b0 rest b :
  In b (b0 :: rest) ->
  Bar.high b <= fold_left Qmax (map Bar.high rest) (Bar.high b0).
Proof.
  intro Hb. apply col_max_upper.
  change (In (Bar.high b) (map Bar.high (b0 :: rest))).
  apply in_map. exact Hb.
Qed.

Lemma low_lower b0 rest b :
  In b (b0 :: rest) ->
  fold_left Qmin (map Bar.low rest) (Bar.low b0) <= Bar.low b.
Proof.
  intro Hb. apply col_min_lower.
  change (In (Bar.low b) (map Bar.low (b0 :: rest))).
  apply in_map. exact Hb.
Qed.

(** A sub-frame's extremes lie inside the frame's. *)
Lemma sub_high_le i0 irest b0 rest :
  (forall b, In b (i0 :: irest) -> In b (b0 :: rest)) ->
  fold_left Qmax (map Bar.high irest) (Bar.high i0)
  <= fold_left Qmax (map Bar.high rest) (Bar.high b0).
Proof.
  intro Hsub. apply col_max_least. intros y Hy.
  change (In y (map Bar.high (i0 :: irest))) in Hy.
  apply in_map_iff in Hy. destruct Hy as (b & <- & Hb).
  apply high_upper, Hsub, Hb.
Qed.

Lemma sub_low_ge i0 irest b0 rest :
  (forall b, In b (i0 :: irest) -> In b (b0 :: rest)) ->
  fold_left Qmin (map Bar.low rest) (Bar.low b0)
  <= fold_left Qmin (map Bar.low irest) (Bar.low i0).
Proof.
  intro Hsub. apply col_min_greatest. intros y Hy.
  change (In y (map Bar.low (i0 :: irest))) in Hy.
  apply in_map_iff in Hy. destruct Hy as (b & <- & Hb).
  apply low_lower, Hsub, Hb.
Qed.

Lemma select_subset mask df sub :
  select mask df = sub -> forall b, In b sub -> In b df.
Proof.
  intros <- b Hb. unfold select in Hb. apply filter_In in Hb. tauto.
Qed.

Lemma last_in (b0 : Bar.t) rest : In (last rest b0) (b0 :: rest).
Proof.
  revert b0. induction rest as [|c rest IH]; intro b0.
  - left. reflexivity.
  - right. rewrite last_cons. apply IH.
Qed.

(* ===================================================================== *)
(** ** Ranges of the extracted record                                   *)
(* ===================================================================== *)

Section Ranges.

Variables (b0 : Bar.t) (rest : list Bar.t) (i0 : Bar.t) (irest : list Bar.t).
Hypothesis Hib : select ib_mask (b0 :: rest) = i0 :: irest.

Lemma ib_rows_in_frame b : In b (i0 :: irest) -> In b (b0 :: rest).
Proof. apply (select_subset ib_mask). exact Hib. Qed.

Lemma ib_high_le_day_high :
  ib_high (metrics_of b0 rest i0 irest)
  <= day_high (metrics_of b0 rest i0 irest).
Proof. cbn. apply sub_high_le. exact ib_rows_in_frame. Qed.

Lemma day_low_le_ib_low :
  day_low (metrics_of b0 rest i0 irest)
  <= ib_low (metrics_of b0 rest i0 irest).
Proof. cbn. apply sub_low_ge. exact ib_rows_in_frame. Qed.

Lemma ib_low_le_ib_high :
  low_le_high i0 ->
  ib_low (metrics_of b0 rest i0 irest)
  <= ib_high (metrics_of b0 rest i0 irest).
Proof.
  intro Hv. cbn.
  apply Qle_trans with (Bar.low i0);
    [apply low_lower; left; reflexivity|].
  apply Qle_trans with (Bar.high i0); [exact Hv|].
  apply high_upper. left. reflexivity.
Qed.

Lemma range_fields :
  ib_range (metrics_of b0 rest i0 irest)
  = ib_high (metrics_of b0 rest i0 irest)
    - ib_low (metrics_of b0 rest i0 irest) /\
  day_range (metrics_of b0 rest i0 irest)
  = day_high (metrics_of b0 rest i0 irest)
    - day_low (metrics_of b0 rest i0 irest).
Proof. split; reflexivity. Qed.

Lemma ib_range_le_day_range :
  ib_range (metrics_of b0 rest i0 irest)
  <= day_range (metrics_of b0 rest i0 irest).
Proof.
  destruct range_fields as [-> ->].
  pose proof ib_high_le_day_high. pose proof day_low_le_ib_low. lra.
Qed.

Lemma ib_range_nonneg :
  low_le_high i0 -> 0 <= ib_range (metrics_of b0 rest i0 irest).
Proof.
  intro Hv. destruct range_fields as [-> _].
  pose proof (ib_low_le_ib_high Hv). lra.
Qed.

Lemma close_within_day :
  Bar.low (last rest b0) <= Bar.close (last rest b0) ->
  Bar.close (last rest b0) <= Bar.high (last rest b0) ->
  day_low (metrics_of b0 rest i0 irest)
  <= close (metrics_of b0 rest i0 irest) /\
  close (metrics_of b0 rest i0 irest)
  <= day_high (metrics_of b0 rest i0 irest).
Proof.
  intros Hl Hh. cbn. split.
  - eapply Qle_trans; [|exact Hl]. apply low_lower, last_in.
  - eapply Qle_trans; [exact Hh|]. apply high_upper, last_in.
Qed.

End Ranges.

Lemma physical_low_le_high b : physical_bar b -> low_le_high b.
Proof.
  unfold physical_bar, low_le_high. intros (H1 & H2 & _ & _).
  eapply Qle_trans; eassumption.
Qed.

Lemma div_unit_interval a r : 0 <= a -> a <= r -> 0 < r -> 0 <= a / r <= 1.
Proof.
  intros Ha Har Hr. split.
  - apply Qle_shift_div_l; [exact Hr|]. lra.
  - apply Qle_shift_div_r; [exact Hr|]. lra.
Qed.

Lemma half_sum a b : (a + b) / 2 == (1 # 2) * a + (1 # 2) * b.
Proof. field. Qed.

Lemma truthy_range_pos a r :
  0 <= a -> a <= r -> truthy r = true -> 0 < r.
Proof.
  intros Ha Har Ht. apply truthy_true in Ht.
  destruct (Qlt_le_dec 0 r) as [H|H]; [exact H|].
  exfalso. apply Ht. lra.
Qed.

(** The four ratio fields in terms of the other fields of the record. *)
Lemma ratio_fields b0 rest i0 irest :
  let m := metrics_of b0 rest i0 irest in
  ib_pct m = (if truthy (open_915 m)
              then ib_range m / open_915 m * 100 else 0) /\
  ib_ratio m = (if truthy (day_range m)
                then ib_range m / day_range m else 0) /\
  close_pos_mid m =
    (if truthy (day_range m)
     then Qabs (close m - (day_high m + day_low m) / 2) / day_range m
     else 0) /\
  close_dist_from_extreme m =
    (if truthy (day_range m)
     then Qmin (Qabs (close m - day_low m)) (Qabs (close m - day_high m))
          / day_range m
     else 1) /\
  re_up m = Qgtb (day_high m) (ib_high m) /\
  re_down m = Qltb (day_low m) (ib_low m).
Proof. cbv zeta. repeat split; reflexivity. Qed.

(** C5.  On physical bars (low <= open, close <= high) every extracted
    record has [0 <= ib_range <= day_range], hence [ib_ratio] in [0, 1];
    and when [day_range > 0] both [close_pos_mid] and
    [close_dist_from_extreme] lie in [0, 1]. *)
Theorem extracted_metrics_bounds (df : DataFrame) (m : SessionMetrics) :
  Forall physical_bar df ->
  compute_ib_and_day_metrics df = Returned (Some m) ->
  0 <= ib_range m /\ ib_range m <= day_range m /\
  (0 <= ib_ratio m /\ ib_ratio m <= 1) /\
  (0 < day_range m ->
   (0 <= close_pos_mid m /\ close_pos_mid m <= 1) /\
   (0 <= close_dist_from_extreme m /\ close_dist_from_extreme m <= 1)).
Proof.
  intros Hphys Hrun.
  destruct (compute_some_inv df m Hrun)
    as (b0 & rest & i0 & irest & -> & Hib & ->).
  rewrite Forall_forall in Hphys.
  assert (Hi0 : low_le_high i0).
  { apply physical_low_le_high, Hphys.
    apply (ib_rows_in_frame b0 rest i0 irest Hib). left. reflexivity. }
  assert (Hlast : physical_bar (last rest b0)) by apply Hphys, last_in.
  destruct Hlast as (_ & _ & Hlc & Hch).
  pose proof (ib_range_nonneg b0 rest i0 irest Hi0) as Hnn.
  pose proof (ib_range_le_day_range b0 rest i0 irest Hib) as Hle.
  destruct (close_within_day b0 rest i0 irest Hlc Hch) as [Hcl Hcu].
  destruct (range_fields b0 rest i0 irest) as [_ Hdr].
  destruct (ratio_fields b0 rest i0 irest) as (_ & Hr & Hm & He & _ & _).
  set (M := metrics_of b0 rest i0 irest) in *.
  split; [exact Hnn|]. split; [exact Hle|]. split.
  - rewrite Hr. destruct (truthy (day_range M)) eqn:Ht.
    + apply div_unit_interval; try assumption.
      apply (truthy_range_pos (ib_range M)); assumption.
    + split; [apply Qle_refl | discriminate].
  - intro Hpos.
    assert (Ht : truthy (day_range M) = true)
      by (apply truthy_true; intro E; rewrite E in Hpos;
          exact (Qlt_irrefl 0 Hpos)).
    rewrite Hm, He, Ht. split.
    + apply div_unit_interval; [apply Qabs_nonneg| |exact Hpos].
      apply Qabs_Qle_condition. rewrite Hdr in *.
      rewrite half_sum. split; lra.
    + apply div_unit_interval; [| |exact Hpos].
      * apply Q.min_glb; apply Qabs_nonneg.
      * eapply Qle_trans; [apply Q.le_min_l|].
        apply Qabs_Qle_condition. rewrite Hdr in *. split; lra.
Qed.

Lemma extracted_metrics_bounds_witness :
  exists m,
    compute_ib_and_day_metrics sample_day = Returned (Some m) /\
    0 <= ib_range m /\ ib_range m <= day_range m /\
    (0 <= ib_ratio m /\ ib_ratio m <= 1) /\
    (0 < day_range m ->
     (0 <= close_pos_mid m /\ close_pos_mid m <= 1) /\
     (0 <= close_dist_from_extreme m /\ close_dist_from_extreme m <= 1)).
Proof.
  eexists. split; [reflexivity|].
  apply (extracted_metrics_bounds sample_day).
  - unfold sample_day, physical_bar.
    repeat constructor; cbn; unfold Qle; cbn; lia.
  - reflexivity.
Defined.

(* ===================================================================== *)
(** ** The motionless day                                               *)
(* ===================================================================== *)

(** On bars with low <= high, a zero day range squeezes the IB extremes
    onto the day's: no extension either way and a zero IB range. *)
Lemma flat_day_shape b0 rest i0 irest :
  select ib_mask (b0 :: rest) = i0 :: irest ->
  low_le_high i0 ->
  let m := metrics_of b0 rest i0 irest in
  day_range m == 0 ->
  truthy (day_range m) = false /\ ib_range m == 0 /\
  re_up m = false /\ re_down m = false.
Proof.
  intros Hib Hi0 m H0.
  pose proof (ib_high_le_day_high b0 rest i0 irest Hib) as Hh.
  pose proof (day_low_le_ib_low b0 rest i0 irest Hib) as Hl.
  pose proof (ib_low_le_ib_high b0 rest i0 irest Hi0) as Hlh.
  destruct (range_fields b0 rest i0 irest) as [Hir Hdr].
  destruct (ratio_fields b0 rest i0 irest) as (_ & _ & _ & _ & Hu & Hd).
  fold m in Hh, Hl, Hlh, Hir, Hdr, Hu, Hd.
  rewrite Hdr in H0.
  split; [apply truthy_false; rewrite Hdr; exact H0|].
  split; [rewrite Hir; lra|].
  split.
  - rewrite Hu. unfold Qgtb. apply Qltb_ge. lra.
  - rewrite Hd. apply Qltb_ge. lra.
Qed.




(** C9.  A record extracted from bars with low <= high whose day range
    is zero is labelled Non-trend Day. *)
Theorem flat_day_is_non_trend (df : DataFrame) (m : SessionMetrics) :
  Forall low_le_high df ->
  compute_ib_and_day_metrics df = Returned (Some m) ->
  day_range m == 0 ->
  classify_day_type m = "Non-trend Day"%string.
Proof.
  intros Hphys Hrun H0.
  destruct (compute_some_inv df m Hrun)
    as (b0 & rest & i0 & irest & -> & Hib & ->).
  rewrite Forall_forall in Hphys.
  assert (Hi0 : low_le_high i0).
  { apply Hphys, (ib_rows_in_frame b0 rest i0 irest Hib).
    left. reflexivity. }
  destruct (flat_day_shape b0 rest i0 irest Hib Hi0 H0)
    as (Ht & _ & Hu & Hd).
  destruct (ratio_fields b0 rest i0 irest) as (_ & Hr & _ & _ & _ & _).
  rewrite Ht in Hr.
  rewrite classify_day_type_guards. cbv zeta.
  rewrite Hu, Hd, Hr. reflexivity.
Qed.

Lemma flat_day_is_non_trend_witness :
  exists m,
    compute_ib_and_day_metrics flat_day = Returned (Some m) /\
    day_range m == 0 /\
    classify_day_type m = "Non-trend Day"%string.
Proof.
  eexists. split; [reflexivity|]. split; [reflexivity|].
  apply (flat_day_is_non_trend flat_day).
  - unfold flat_day, low_le_high.
    repeat constructor; cbn; unfold Qle; cbn; lia.
  - reflexivity.
  - reflexivity.
Defined.

(* ===================================================================== *)
(** ** Session hours                                                    *)
(* ===================================================================== *)

Lemma select_session_restrict data :
  select session_mask data = restrict_to_session data.
Proof.
  unfold select. induction data as [|b rest IH]; [reflexivity|].
  cbn [filter restrict_to_session]. rewrite IH.
  destruct (in_session_dec b) as [Hin|Hout];
    destruct (session_mask b) eqn:E; try reflexivity; exfalso.
  - apply session_mask_window in Hin. congruence.
  - apply Hout, session_mask_window, E.
Qed.

Lemma fetch_day_candles_restrict data :
  fetch_day_candles data = restrict_to_session data.
Proof.
  unfold fetch_day_candles. destruct data as [|b rest]; [reflexivity|].
  cbn [empty]. apply select_session_restrict.
Qed.

Lemma restrict_to_session_app l1 l2 :
  restrict_to_session (l1 ++ l2)
  = restrict_to_session l1 ++ restrict_to_session l2.
Proof.
  induction l1 as [|b l1 IH]; [reflexivity|].
  cbn [app restrict_to_session]. rewrite IH.
  destruct (in_session_dec b); reflexivity.
Qed.

Lemma restrict_to_session_idem data :
  restrict_to_session (restrict_to_session data) = restrict_to_session data.
Proof.
  induction data as [|b rest IH]; [reflexivity|].
  cbn [restrict_to_session].
  destruct (in_session_dec b) as [Hin|Hout]; [|exact IH].
  cbn [restrict_to_session].
  destruct (in_session_dec b) as [_|Hout]; [|contradiction].
  rewrite IH. reflexivity.
Qed.

Lemma restrict_to_session_drop l1 b l2 :
  ~ in_session b ->
  restrict_to_session (l1 ++ b :: l2) = restrict_to_session (l1 ++ l2).
Proof.
  intro Hout. rewrite !restrict_to_session_app.
  cbn [restrict_to_session].
  destruct (in_session_dec b); [contradiction|reflexivity].
Qed.

(** C6.  The per-day pipeline extracts from the session-hours bars only:
    its outcome on any bar sequence is the extractor's outcome on the
    sequence restricted to [[MARKET_OPEN, MARKET_CLOSE]], it is the same
    as the pipeline's outcome on that restricted sequence, and a bar
    outside session hours can be dropped from anywhere in the input
    without changing it. *)
Theorem day_metrics_ignore_out_of_session (data : list Bar.t) :
  day_metrics data = compute_ib_and_day_metrics (restrict_to_session data) /\
  day_metrics data = day_metrics (restrict_to_session data) /\
  (forall before b after,
      data = before ++ b :: after -> ~ in_session b ->
      day_metrics data = day_metrics (before ++ after)).
Proof.
  unfold day_metrics. rewrite !fetch_day_candles_restrict.
  split; [reflexivity|]. split.
  - rewrite restrict_to_session_idem. reflexivity.
  - intros before b after -> Hout.
    rewrite fetch_day_candles_restrict.
    rewrite (restrict_to_session_drop before b after Hout). reflexivity.
Qed.

Lemma day_metrics_ignore_out_of_session_witness :
  day_metrics (bar (hhmm 8 20) 90 200 1 90 :: sample_day)
  = day_metrics sample_day.
Proof.
  apply (proj2 (proj2 (day_metrics_ignore_out_of_session
                         (bar (hhmm 8 20) 90 200 1 90 :: sample_day)))
           [] (bar (hhmm 8 20) 90 200 1 90) sample_day).
  - reflexivity.
  - unfold in_session. cbn. lia.
Defined.

(* ===================================================================== *)
(** ** Open and close prices                                            *)
(* ===================================================================== *)






(* ===================================================================== *)
(** ** The scenarios of the design document (section 8)                 *)
(* ===================================================================== *)

(** A: the IB spans the whole day, no extension. *)
Example scenario_A :
  exists m,
    compute_ib_and_day_metrics [bar (hhmm 9 15) 100 105 95 100]
    = Returned (Some m) /\
    ib_ratio m == 1 /\ classify_day_type m = "Non-trend Day"%string.
Proof. eexists. repeat split; reflexivity. Qed.

(** B: wide IB, upside extension only. *)
Example scenario_B :
  classify_day_type
    (mkMetrics 140 100 40 160 100 60 100 150 true false 40
               (40 # 60) (20 # 60) (10 # 60))
  = "Normal Variation Day"%string.
Proof. reflexivity. Qed.

(** C: narrow IB, upside breakout, close pinned near the high. *)
Example scenario_C :
  classify_day_type
    (mkMetrics 110 100 10 200 100 100 100 195 true false 10
               (10 # 100) (45 # 100) (5 # 100))
  = "Trend Day"%string.
Proof. reflexivity. Qed.

(** D: two-sided extension, close at the middle. *)
Example scenario_D :
  classify_day_type
    (mkMetrics 110 100 10 120 90 30 100 108 true true 10
               (10 # 30) (10 # 100) (40 # 100))
  = "Neutral Center Day"%string.
Proof. reflexivity. Qed.

(** E: two-sided extension, close near the low and outside the mid
    band. *)
Example scenario_E :
  classify_day_type
    (mkMetrics 110 100 10 120 90 30 100 93 true true 10
               (10 # 30) (45 # 100) (10 # 100))
  = "Neutral Extreme Day"%string.
Proof. reflexivity. Qed.

(** F: bars in session, none in the IB window. *)
Example scenario_F : day_metrics late_day = Returned None.
Proof. reflexivity. Qed.

(** The sample day, end to end. *)
Example sample_day_labels :
  exists m,
    day_metrics sample_day = Returned (Some m) /\
    classify_day_type m = "Normal Variation Day"%string /\
    classify_ib_size (ib_pct m) = "Large"%string.
Proof. eexists. repeat split; reflexivity. Qed.

(* ===================================================================== *)
(** ** Each label in closed form                                        *)
(* ===================================================================== *)

Ltac guard_facts :=
  repeat match goal with
         | E : Qleb _ _ = true |- _ => apply Qleb_le in E
         | E : Qleb _ _ = false |- _ => apply Qleb_gt in E
         end.

Ltac settle_label :=
  split;
  [ let H := fresh "H" in
    intro H;
    first [ discriminate H
          | repeat split;
            solve [ reflexivity | lra | left; lra | right; lra ] ]
  | let H := fresh "H" in
    intro H;
    first [ reflexivity
          | exfalso; decompose [and or] H; solve [ congruence | lra ] ] ].

Ltac by_guards m :=
  rewrite (classify_day_type_guards m); cbv zeta;
  destruct (re_up m), (re_down m); split_guards; guard_facts; cbn;
  settle_label.

Lemma trend_day_iff m :
  classify_day_type m = "Trend Day"%string <->
  xorb (re_up m) (re_down m) = true /\
  ib_ratio m <= 25 # 100 /\ close_dist_from_extreme m <= 15 # 100.
Proof. by_guards m. Qed.

Lemma normal_day_iff m :
  classify_day_type m = "Normal Day"%string <->
  re_up m = false /\ re_down m = false /\
  50 # 100 <= ib_ratio m /\ ib_ratio m < 80 # 100.
Proof. by_guards m. Qed.

Lemma non_trend_day_iff m :
  classify_day_type m = "Non-trend Day"%string <->
  re_up m = false /\ re_down m = false /\
  (80 # 100 <= ib_ratio m \/ ib_ratio m < 50 # 100).
Proof. by_guards m. Qed.

Lemma neutral_extreme_day_iff m :
  classify_day_type m = "Neutral Extreme Day"%string <->
  re_up m = true /\ re_down m = true /\
  30 # 100 < close_pos_mid m /\ close_dist_from_extreme m <= 15 # 100.
Proof. by_guards m. Qed.

Lemma neutral_center_day_iff m :
  classify_day_type m = "Neutral Center Day"%string <->
  re_up m = true /\ re_down m = true /\
  (close_pos_mid m <= 30 # 100 \/ 15 # 100 < close_dist_from_extreme m).
Proof. by_guards m. Qed.

Lemma normal_variation_day_iff m :
  classify_day_type m = "Normal Variation Day"%string <->
  xorb (re_up m) (re_down m) = true /\
  (25 # 100 < ib_ratio m \/ 15 # 100 < close_dist_from_extreme m).
Proof. by_guards m. Qed.

(** X1.  Each of the six labels in closed form, as a condition on the
    two extension flags and the three ratios. *)
Theorem day_type_closed_forms (m : SessionMetrics) :
  (classify_day_type m = "Trend Day"%string <->
   xorb (re_up m) (re_down m) = true /\
   ib_ratio m <= 25 # 100 /\ close_dist_from_extreme m <= 15 # 100) /\
  (classify_day_type m = "Normal Variation Day"%string <->
   xorb (re_up m) (re_down m) = true /\
   (25 # 100 < ib_ratio m \/ 15 # 100 < close_dist_from_extreme m)) /\
  (classify_day_type m = "Normal Day"%string <->
   re_up m = false /\ re_down m = false /\
   50 # 100 <= ib_ratio m /\ ib_ratio m < 80 # 100) /\
  (classify_day_type m = "Non-trend Day"%string <->
   re_up m = false /\ re_down m = false /\
   (80 # 100 <= ib_ratio m \/ ib_ratio m < 50 # 100)) /\
  (classify_day_type m = "Neutral Extreme Day"%string <->
   re_up m = true /\ re_down m = true /\
   30 # 100 < close_pos_mid m /\ close_dist_from_extreme m <= 15 # 100) /\
  (classify_day_type m = "Neutral Center Day"%string <->
   re_up m = true /\ re_down m = true /\
   (close_pos_mid m <= 30 # 100 \/ 15 # 100 < close_dist_from_extreme m)).
Proof.
  exact (conj (trend_day_iff m)
        (conj (normal_variation_day_iff m)
        (conj (normal_day_iff m)
        (conj (non_trend_day_iff m)
        (conj (neutral_extreme_day_iff m)
              (neutral_center_day_iff m)))))).
Qed.

(* ===================================================================== *)
(** ** What the extractor's records can and cannot be                   *)
(* ===================================================================== *)

(** Without extension the IB range is the day range, so the ratio is 1,
    or the literal 0 on a zero range. *)
Lemma no_extension_ratio b0 rest i0 irest :
  select ib_mask (b0 :: rest) = i0 :: irest ->
  let m := metrics_of b0 rest i0 irest in
  re_up m = false -> re_down m = false ->
  ib_range m == day_range m /\ (ib_ratio m == 1 \/ ib_ratio m = 0).
Proof.
  intros Hib m Hu Hd.
  pose proof (ib_high_le_day_high b0 rest i0 irest Hib) as Hh.
  pose proof (day_low_le_ib_low b0 rest i0 irest Hib) as Hl.
  destruct (range_fields b0 rest i0 irest) as [Hir Hdr].
  destruct (ratio_fields b0 rest i0 irest) as (_ & Hr & _ & _ & Hu' & Hd').
  fold m in Hh, Hl, Hir, Hdr, Hr, Hu', Hd'.
  rewrite Hu' in Hu. rewrite Hd' in Hd.
  unfold Qgtb in Hu. apply Qltb_ge in Hu. apply Qltb_ge in Hd.
  assert (Heq : ib_range m == day_range m) by (rewrite Hir, Hdr; lra).
  split; [exact Heq|].
  rewrite Hr. destruct (truthy (day_range m)) eqn:Ht.
  - left. apply truthy_true in Ht. rewrite Heq. field. exact Ht.
  - right. reflexivity.
Qed.

Lemma no_extension_non_trend b0 rest i0 irest :
  select ib_mask (b0 :: rest) = i0 :: irest ->
  let m := metrics_of b0 rest i0 irest in
  re_up m = false -> re_down m = false ->
  classify_day_type m = "Non-trend Day"%string.
Proof.
  intros Hib m Hu Hd.
  destruct (no_extension_ratio b0 rest i0 irest Hib Hu Hd) as [_ Hr].
  subst m. apply non_trend_day_iff.
  split; [exact Hu|]. split; [exact Hd|].
  destruct Hr as [Hr|Hr]; [left; lra|right; rewrite Hr; lra].
Qed.

(** X2.  On every record the extractor returns, no extension either way
    means an IB range equal to the day range and the label Non-trend Day;
    so the label Normal Day is given to no extracted record at all. *)
Theorem extracted_never_normal_day (df : DataFrame) (m : SessionMetrics) :
  compute_ib_and_day_metrics df = Returned (Some m) ->
  (re_up m = false -> re_down m = false ->
   ib_range m == day_range m /\
   classify_day_type m = "Non-trend Day"%string) /\
  classify_day_type m <> "Normal Day"%string.
Proof.
  intro Hrun.
  destruct (compute_some_inv df m Hrun)
    as (b0 & rest & i0 & irest & -> & Hib & ->).
  split.
  - intros Hu Hd. split.
    + apply (no_extension_ratio b0 rest i0 irest Hib Hu Hd).
    + apply (no_extension_non_trend b0 rest i0 irest Hib Hu Hd).
  - intro Hn. apply normal_day_iff in Hn.
    destruct Hn as (Hu & Hd & H50 & H80).
    destruct (no_extension_ratio b0 rest i0 irest Hib Hu Hd) as [_ [Hr|Hr]];
      [lra | rewrite Hr in H50; lra].
Qed.

Lemma extracted_never_normal_day_witness :
  exists m,
    compute_ib_and_day_metrics [bar (hhmm 9 15) 100 105 95 100]
    = Returned (Some m) /\
    classify_day_type m = "Non-trend Day"%string /\
    classify_day_type m <> "Normal Day"%string.
Proof.
  eexists. split; [reflexivity|].
  destruct (extracted_never_normal_day
              [bar (hhmm 9 15) 100 105 95 100] _ eq_refl) as [Hnt Hnn].
  split; [|exact Hnn].
  apply Hnt; reflexivity.
Defined.

Lemma select_all mask df :
  (forall b, In b df -> mask b = true) -> select mask df = df.
Proof.
  unfold select. induction df as [|a df IH]; intro H; [reflexivity|].
  cbn [filter]. rewrite (H a (or_introl eq_refl)). f_equal.
  apply IH. intros b Hb. apply H. right. exact Hb.
Qed.

Lemma Qltb_irrefl x : Qltb x x = false.
Proof. apply Qltb_ge. apply Qle_refl. Qed.

(** X3.  A non-empty frame whose bars all lie in the Initial Balance
    window gets a record without extension, and the label Non-trend
    Day. *)
Theorem ib_only_frame_is_non_trend (df : DataFrame) :
  df <> [] ->
  (forall b, In b df -> in_ib_window b) ->
  exists m,
    compute_ib_and_day_metrics df = Returned (Some m) /\
    re_up m = false /\ re_down m = false /\
    ib_range m = day_range m /\
    classify_day_type m = "Non-trend Day"%string.
Proof.
  intros Hne Hall. destruct df as [|b0 rest]; [contradiction|].
  assert (Hib : select ib_mask (b0 :: rest) = b0 :: rest).
  { apply select_all. intros b Hb. apply ib_mask_window, Hall, Hb. }
  exists (metrics_of b0 rest b0 rest).
  assert (Hu : re_up (metrics_of b0 rest b0 rest) = false)
    by apply Qltb_irrefl.
  assert (Hd : re_down (metrics_of b0 rest b0 rest) = false)
    by apply Qltb_irrefl.
  split; [apply compute_returns, Hib|].
  split; [exact Hu|]. split; [exact Hd|]. split; [reflexivity|].
  apply (no_extension_non_trend b0 rest b0 rest Hib Hu Hd).
Qed.

Lemma ib_only_frame_is_non_trend_witness :
  exists m,
    compute_ib_and_day_metrics
      [bar (hhmm 9 15) 100 105 95 101; bar (hhmm 10 15) 101 110 100 108]
    = Returned (Some m) /\
    re_up m = false /\ re_down m = false /\
    ib_range m = day_range m /\
    classify_day_type m = "Non-trend Day"%string.
Proof.
  apply ib_only_frame_is_non_trend.
  - discriminate.
  - intros b [<-|[<-|[]]]; unfold in_ib_window; cbn; lia.
Defined.

(** X4.  On physical bars and a non-zero day range, the distance of the
    close from the middle and its distance from the nearer extreme add
    up to half the range: [close_pos_mid + close_dist_from_extreme]
    is 1/2. *)
Theorem close_ratios_sum_to_half (df : DataFrame) (m : SessionMetrics) :
  Forall physical_bar df ->
  compute_ib_and_day_metrics df = Returned (Some m) ->
  ~ day_range m == 0 ->
  close_pos_mid m + close_dist_from_extreme m == 1 # 2.
Proof.
  intros Hphys Hrun Hnz.
  destruct (compute_some_inv df m Hrun)
    as (b0 & rest & i0 & irest & -> & Hib & ->).
  rewrite Forall_forall in Hphys.
  assert (Hlast : physical_bar (last rest b0)) by apply Hphys, last_in.
  destruct Hlast as (_ & _ & Hlc & Hch).
  destruct (close_within_day b0 rest i0 irest Hlc Hch) as [Hcl Hcu].
  destruct (range_fields b0 rest i0 irest) as [_ Hdr].
  destruct (ratio_fields b0 rest i0 irest) as (_ & _ & Hm & He & _ & _).
  set (M := metrics_of b0 rest i0 irest) in *.
  assert (Ht : truthy (day_range M) = true) by (apply truthy_true, Hnz).
  rewrite Hm, He, Ht. rewrite Hdr in *.
  assert (Hlo : Qabs (close M - day_low M) == close M - day_low M)
    by (apply Qabs_pos; lra).
  assert (Hhi : Qabs (close M - day_high M) == day_high M - close M).
  { rewrite Qabs_neg by lra. ring. }
  rewrite Hlo, Hhi, half_sum.
  destruct (Q.min_spec (close M - day_low M) (day_high M - close M))
    as [[Hlt ->]|[Hge ->]].
  - rewrite Qabs_neg by lra. field. exact Hnz.
  - rewrite Qabs_pos by lra. field. exact Hnz.
Qed.

Lemma close_ratios_sum_to_half_witness :
  exists m,
    compute_ib_and_day_metrics sample_day = Returned (Some m) /\
    close_pos_mid m + close_dist_from_extreme m == 1 # 2.
Proof.
  eexists. split; [reflexivity|].
  apply (close_ratios_sum_to_half sample_day).
  - unfold sample_day, physical_bar.
    repeat constructor; cbn; unfold Qle; cbn; lia.
  - reflexivity.
  - cbn. unfold Qeq. cbn. lia.
Defined.

(* ===================================================================== *)
(** ** Dates: [daterange] and [is_weekend]                              *)
(* ===================================================================== *)

Lemma range_In n k : In k (range n) <-> (0 <= k < n)%Z.
Proof.
  unfold range. rewrite in_map_iff. split.
  - intros (i & <- & Hi). apply in_seq in Hi. lia.
  - intro Hk. exists (Z.to_nat k). split; [lia|].
    apply in_seq. lia.
Qed.

Lemma range_length n : List.length (range n) = Z.to_nat n.
Proof. unfold range. rewrite length_map, length_seq. reflexivity. Qed.

Lemma seq_shift_sorted (start : Z) (len : nat) :
  forall a : nat,
    StronglySorted Z.lt
      (map (fun n => (start + n)%Z) (map Z.of_nat (seq a len))).
Proof.
  induction len as [|len IH]; intro a; cbn [seq map].
  - constructor.
  - constructor; [apply IH|].
    rewrite Forall_forall. intros x Hx.
    rewrite map_map in Hx. apply in_map_iff in Hx.
    destruct Hx as (i & <- & Hi). apply in_seq in Hi. lia.
Qed.

Lemma daterange_In start end_ d :
  In d (daterange start end_) <-> (start <= d <= end_)%Z.
Proof.
  unfold daterange. rewrite in_map_iff. split.
  - intros (k & <- & Hk). apply range_In in Hk. lia.
  - intros [H1 H2]. exists (d - start)%Z.
    split; [lia|]. apply range_In. lia.
Qed.

(** X5.  [daterange start end] yields exactly the dates from [start] to
    [end], both included, each once and in increasing order; it yields
    nothing when [end] is before [start]. *)
Theorem daterange_spec (start end_ : Z) :
  (forall d, In d (daterange start end_) <-> (start <= d <= end_)%Z) /\
  List.length (daterange start end_) = Z.to_nat (end_ - start + 1) /\
  StronglySorted Z.lt (daterange start end_) /\
  ((end_ < start)%Z -> daterange start end_ = []).
Proof.
  split; [intro d; apply daterange_In|].
  unfold daterange. split; [|split].
  - rewrite length_map. apply range_length.
  - apply seq_shift_sorted.
  - intro Hlt. unfold range.
    replace (Z.to_nat (end_ - start + 1)) with 0%nat by lia. reflexivity.
Qed.

Lemma daterange_spec_witness : daterange 10 9 = [].
Proof.
  apply (proj2 (proj2 (proj2 (daterange_spec 10 9)))). lia.
Defined.

Lemma increasing_NoDup (l : list Z) : StronglySorted Z.lt l -> NoDup l.
Proof.
  induction 1 as [|x l Hs IH Hall]; constructor; [|exact IH].
  rewrite Forall_forall in Hall. intro Hx. specialize (Hall x Hx). lia.
Qed.

Lemma daterange_NoDup start end_ : NoDup (daterange start end_).
Proof. apply increasing_NoDup. unfold daterange. apply seq_shift_sorted. Qed.

Lemma weekday_shift d k :
  weekday (d + k) = ((d mod 7 + (k + 6)) mod 7)%Z.
Proof.
  unfold weekday.
  replace (d + k + 6)%Z with (d + (k + 6))%Z by lia.
  rewrite Z.add_mod_idemp_l by lia. reflexivity.
Qed.

(** X6.  Weekends come two in every seven days: whatever the day [d],
    exactly two of the dates [d .. d + 6] are weekend days, and a date
    and the date a week later agree. *)
Theorem weekend_two_in_seven (d : Z) :
  List.length (filter is_weekend (daterange d (d + 6))) = 2%nat /\
  is_weekend (d + 7) = is_weekend d.
Proof.
  assert (Hr : (0 <= d mod 7 < 7)%Z) by (apply Z.mod_pos_bound; lia).
  split.
  - unfold daterange, range.
    replace (Z.to_nat (d + 6 - d + 1)) with 7%nat by lia.
    cbn [seq map filter].
    change (Z.of_nat 0) with 0%Z. change (Z.of_nat 1) with 1%Z.
    change (Z.of_nat 2) with 2%Z. change (Z.of_nat 3) with 3%Z.
    change (Z.of_nat 4) with 4%Z. change (Z.of_nat 5) with 5%Z.
    change (Z.of_nat 6) with 6%Z.
    unfold is_weekend. rewrite !weekday_shift.
    assert (Hc : (d mod 7 = 0 \/ d mod 7 = 1 \/ d mod 7 = 2 \/ d mod 7 = 3
                  \/ d mod 7 = 4 \/ d mod 7 = 5 \/ d mod 7 = 6)%Z) by lia.
    destruct Hc as [E|[E|[E|[E|[E|[E|E]]]]]]; rewrite E; reflexivity.
  - unfold is_weekend. rewrite weekday_shift.
    replace (weekday d) with (weekday (d + 0)) by (f_equal; lia).
    rewrite weekday_shift.
    assert (Hc : (d mod 7 = 0 \/ d mod 7 = 1 \/ d mod 7 = 2 \/ d mod 7 = 3
                  \/ d mod 7 = 4 \/ d mod 7 = 5 \/ d mod 7 = 6)%Z) by lia.
    destruct Hc as [E|[E|[E|[E|[E|[E|E]]]]]]; rewrite E; reflexivity.
Qed.

(* ===================================================================== *)
(** ** The per-day pipeline and the IB window                           *)
(* ===================================================================== *)

Lemma ib_window_in_session b : in_ib_window b -> in_session b.
Proof.
  unfold in_ib_window, in_session. intros [H1 H2]. split; [exact H1|].
  apply Z.le_trans with IB_END; [exact H2|].
  unfold IB_END, MARKET_CLOSE, hhmm. lia.
Qed.

Lemma restrict_to_session_In data b :
  In b (restrict_to_session data) <-> In b data /\ in_session b.
Proof.
  induction data as [|a data IH]; cbn [restrict_to_session].
  - split; [intros []|intros [[] _]].
  - destruct (in_session_dec a) as [Ha|Ha]; cbn [In]; rewrite ?IH.
    + split.
      * intros [<-|[H1 H2]]; [split; [left; reflexivity|exact Ha]|].
        split; [right; exact H1|exact H2].
      * intros [[<-|H1] H2]; [left; reflexivity|right; split; assumption].
    + split.
      * intros [H1 H2]. split; [right; exact H1|exact H2].
      * intros [[<-|H1] H2]; [contradiction|split; assumption].
Qed.

Lemma has_ib_bar_fetched data :
  has_ib_bar (fetch_day_candles data) <-> has_ib_bar data.
Proof.
  rewrite fetch_day_candles_restrict. unfold has_ib_bar. split.
  - intros (b & Hb & Hw). apply restrict_to_session_In in Hb.
    exists b. tauto.
  - intros (b & Hb & Hw). exists b. split; [|exact Hw].
    apply restrict_to_session_In. split; [exact Hb|].
    apply ib_window_in_session, Hw.
Qed.

Lemma compute_some_iff df :
  (exists m, compute_ib_and_day_metrics df = Returned (Some m))
  <-> has_ib_bar df.
Proof.
  unfold has_ib_bar.
  destruct (compute_cases df)
    as [[Hd E]|[[Hi E]|(b0 & rest & i0 & irest & Hd & Hi & E)]].
  - subst df. split.
    + intros (m & Hm). rewrite E in Hm. discriminate.
    + intros (b & [] & _).
  - split.
    + intros (m & Hm). rewrite E in Hm. discriminate.
    + intros (b & Hb & Hw). exfalso.
      exact (proj1 (no_ib_bar_iff df) Hi b Hb Hw).
  - split; [|intros _; eexists; exact E].
    intros _. exists i0.
    assert (Hin : In i0 (select ib_mask df))
      by (rewrite Hi; left; reflexivity).
    unfold select in Hin. apply filter_In in Hin.
    destruct Hin as [Hin Hm]. split; [exact Hin|].
    apply ib_mask_window, Hm.
Qed.

Lemma compute_total df :
  compute_ib_and_day_metrics df = Returned None \/
  exists m, compute_ib_and_day_metrics df = Returned (Some m).
Proof.
  destruct (compute_cases df)
    as [[_ E]|[[_ E]|(b0 & rest & i0 & irest & _ & _ & E)]];
    [left; exact E|left; exact E|right; eexists; exact E].
Qed.

Lemma day_metrics_some_iff data :
  (exists m, day_metrics data = Returned (Some m)) <-> has_ib_bar data.
Proof.
  unfold day_metrics. rewrite compute_some_iff.
  apply has_ib_bar_fetched.
Qed.

(** X7.  The per-day pipeline (fetch, then extract) gives no metrics
    exactly when the broker's rows hold no bar in the Initial Balance
    window, and a record as soon as they hold one: the session filter
    never costs an IB bar. *)
Theorem day_metrics_none_iff_no_ib_bar (data : list Bar.t) :
  (day_metrics data = Returned None <-> ~ has_ib_bar data) /\
  ((exists m, day_metrics data = Returned (Some m)) <-> has_ib_bar data).
Proof.
  assert (Hsome : (exists m, day_metrics data = Returned (Some m))
                  <-> has_ib_bar data).
  { unfold day_metrics. rewrite compute_some_iff.
    apply has_ib_bar_fetched. }
  split; [|exact Hsome]. split.
  - intros Hn Hib. apply Hsome in Hib. destruct Hib as (m & Hm).
    rewrite Hn in Hm. discriminate.
  - intro Hno. unfold day_metrics in *.
    destruct (compute_total (fetch_day_candles data)) as [E|E];
      [exact E|]. exfalso. apply Hno, Hsome, E.
Qed.

Lemma day_metrics_none_iff_no_ib_bar_witness :
  day_metrics late_day = Returned None /\
  exists m, day_metrics sample_day = Returned (Some m).
Proof.
  split.
  - apply (proj1 (day_metrics_none_iff_no_ib_bar late_day)).
    intros (b & [<-|[<-|[]]] & Hw); unfold in_ib_window in Hw;
      cbn in Hw; lia.
  - apply (proj2 (day_metrics_none_iff_no_ib_bar sample_day)).
    exists (bar (hhmm 9 15) 100 105 95 101). split.
    + left. reflexivity.
    + unfold in_ib_window. cbn. lia.
Defined.

(* ===================================================================== *)
(** ** [compute_stats]: the result table                                *)
(* ===================================================================== *)

Lemma classify_day_type_label m : In (classify_day_type m) day_type_labels.
Proof.
  rewrite classify_day_type_guards. cbv zeta. unfold day_type_labels.
  destruct (re_up m), (re_down m); split_guards; cbn; tauto.
Qed.

Lemma classify_ib_size_label x : In (classify_ib_size x) ib_size_labels.
Proof.
  unfold classify_ib_size, ib_size_labels.
  destruct (Qltb x IB_SMALL_LT); [|destruct (Qleb x IB_MEDIUM_LE)];
    cbn; tauto.
Qed.

Lemma extracted_not_normal_day df m :
  compute_ib_and_day_metrics df = Returned (Some m) ->
  classify_day_type m <> "Normal Day"%string.
Proof.
  intros Hrun Hn.
  destruct (compute_some_inv df m Hrun)
    as (b0 & rest & i0 & irest & -> & Hib & ->).
  apply normal_day_iff in Hn. destruct Hn as (Hu & Hd & H50 & H80).
  destruct (no_extension_ratio b0 rest i0 irest Hib Hu Hd) as [_ [Hr|Hr]];
    [lra | rewrite Hr in H50; lra].
Qed.

Section Scan.

Variables (broker : Broker) (interval : string).

(** The row of a day, from the metrics of its payload. *)
Lemma classify_day_some index_name meta d row :
  classify_day broker interval index_name meta d = Returned (Some row) <->
  is_weekend d = false /\
  exists m,
    day_metrics (broker (exchange meta) (symboltoken meta) d interval)
    = Returned (Some m) /\
    row = DayRow.mk d index_name (classify_day_type m)
                 (classify_ib_size (ib_pct m))
                 (ib_pct m) (ib_ratio m) (day_range m).
Proof.
  unfold classify_day, day_metrics.
  set (df := fetch_day_candles
               (broker (exchange meta) (symboltoken meta) d interval)).
  destruct (is_weekend d).
  - split; [discriminate|intros [H _]; discriminate].
  - destruct df as [|b0 rest] eqn:Edf.
    + cbn [empty]. split; [discriminate|].
      intros (_ & m & Hm & _). discriminate.
    + cbn [empty]. rewrite <- Edf. clear Edf.
      destruct (compute_total df) as [E|(m & E)]; rewrite E; cbn [bind].
      * split; [discriminate|]. intros (_ & m & Hm & _). discriminate.
      * split.
        -- intro H. split; [reflexivity|]. exists m.
           split; [reflexivity|]. congruence.
        -- intros (_ & m' & Hm' & ->). congruence.
Qed.

Lemma classify_day_total index_name meta d :
  exists r, classify_day broker interval index_name meta d = Returned r.
Proof.
  unfold classify_day. destruct (is_weekend d); [eexists; reflexivity|].
  destruct (empty _); [eexists; reflexivity|].
  destruct (compute_total
              (fetch_day_candles
                 (broker (exchange meta) (symboltoken meta) d interval)))
    as [E|(m & E)]; rewrite E; cbn [bind]; eexists; reflexivity.
Qed.

Lemma day_rows_In index_name meta d row :
  In row (day_rows broker interval index_name meta d) <->
  classify_day broker interval index_name meta d = Returned (Some row).
Proof.
  unfold day_rows.
  destruct (classify_day_total index_name meta d) as ([r|] & E); rewrite E.
  - cbn [In]. split.
    + intros [<-|[]]. reflexivity.
    + intro H. left. congruence.
  - split; [intros []|discriminate].
Qed.

Lemma day_rows_short index_name meta d :
  (List.length (day_rows broker interval index_name meta d) <= 1)%nat.
Proof.
  unfold day_rows.
  destruct (classify_day broker interval index_name meta d) as [e|[r|]];
    cbn; lia.
Qed.

Lemma scan_days_spec index_name meta days :
  forall records,
    scan_days broker interval index_name meta days records
    = Returned (records
                ++ flat_map (day_rows broker interval index_name meta) days).
Proof.
  induction days as [|d days IH]; intro records; cbn [scan_days flat_map].
  - rewrite app_nil_r. reflexivity.
  - unfold day_rows at 1.
    destruct (classify_day_total index_name meta d) as ([r|] & E);
      rewrite E; cbn [bind]; rewrite IH.
    + rewrite <- app_assoc. reflexivity.
    + reflexivity.
Qed.

Lemma scan_indices_spec indices days :
  forall records,
    scan_indices broker interval indices days records
    = Returned
        (records
         ++ flat_map
              (fun p => flat_map
                          (day_rows broker interval (fst p) (snd p)) days)
              indices).
Proof.
  induction indices as [|[index_name meta] indices IH]; intro records;
    cbn [scan_indices flat_map].
  - rewrite app_nil_r. reflexivity.
  - rewrite scan_days_spec. cbn [bind fst snd]. rewrite IH.
    rewrite <- app_assoc. reflexivity.
Qed.

Lemma compute_stats_spec years_back today :
  exists records,
    compute_stats broker interval years_back today
    = Returned (if empty records then None else Some records) /\
    forall row,
      In row records <->
      exists index_name meta d,
        In (index_name, meta) INDICES /\
        (today - years_back * 365 < d <= today)%Z /\
        classify_day broker interval index_name meta d
        = Returned (Some row).
Proof.
  unfold compute_stats. rewrite scan_indices_spec. cbn [bind app].
  match goal with
  | |- exists _, (if empty ?r then _ else _) = _ /\ _ => exists r
  end.
  split; [destruct (empty _); reflexivity|].
  intro row. rewrite in_flat_map. split.
  - intros ([index_name meta] & Hi & Hrow). cbn [fst snd] in Hrow.
    apply in_flat_map in Hrow. destruct Hrow as (d & Hd & Hrow).
    apply daterange_In in Hd. apply day_rows_In in Hrow.
    exists index_name, meta, d. split; [exact Hi|]. split; [lia|exact Hrow].
  - intros (index_name & meta & d & Hi & Hd & Hrow).
    exists (index_name, meta). split; [exact Hi|]. cbn [fst snd].
    apply in_flat_map. exists d. split.
    + apply daterange_In. lia.
    + apply day_rows_In. exact Hrow.
Qed.

End Scan.

(** Rows grouped under distinct tags have distinct keys as soon as each
    group has. *)
Lemma NoDup_flat_map_tagged {A R K T : Type}
    (g : R -> K) (tag : K -> T) (p : A -> T) (f : A -> list R)
    (l : list A) :
  NoDup (map p l) ->
  (forall a r, In r (f a) -> tag (g r) = p a) ->
  (forall a, NoDup (map g (f a))) ->
  NoDup (map g (flat_map f l)).
Proof.
  intros Hl Htag Hgrp. induction l as [|a l IH]; cbn [flat_map map].
  - constructor.
  - cbn [map] in Hl. apply NoDup_cons_iff in Hl. destruct Hl as [Ha Hl].
    rewrite map_app. apply NoDup_app; [apply Hgrp|apply IH, Hl|].
    intros k Hk1 Hk2. apply Ha.
    apply in_map_iff in Hk1. destruct Hk1 as (r1 & <- & Hr1).
    apply in_map_iff in Hk2. destruct Hk2 as (r2 & Heq & Hr2).
    apply in_flat_map in Hr2. destruct Hr2 as (a' & Ha' & Hr2).
    rewrite <- (Htag a r1 Hr1), <- Heq, (Htag a' r2 Hr2).
    apply in_map, Ha'.
Qed.

Lemma short_NoDup {K : Type} (l : list K) :
  (List.length l <= 1)%nat -> NoDup l.
Proof.
  destruct l as [|x [|y l]]; cbn; intro H.
  - constructor.
  - constructor; [intros []|constructor].
  - lia.
Qed.

Lemma INDICES_names : NoDup (map fst INDICES).
Proof.
  cbn. constructor.
  - intros [H|[]]. discriminate H.
  - constructor; [intros []|constructor].
Qed.

Section Table.

Variables (broker : Broker) (interval : string).

Lemma all_rows_NoDup indices days :
  NoDup (map fst indices) -> NoDup days ->
  NoDup (map row_key
           (flat_map
              (fun p => flat_map
                          (day_rows broker interval (fst p) (snd p)) days)
              indices)).
Proof.
  intros Hi Hd.
  apply (NoDup_flat_map_tagged row_key fst fst); [exact Hi| |].
  - intros [index_name meta] r Hr. cbn [fst snd] in *.
    apply in_flat_map in Hr. destruct Hr as (d & _ & Hr).
    apply day_rows_In, classify_day_some in Hr.
    destruct Hr as (_ & m & _ & ->). reflexivity.
  - intros [index_name meta]. cbn [fst snd].
    apply (NoDup_flat_map_tagged row_key snd (fun d => d));
      [rewrite map_id; exact Hd| |].
    + intros d r Hr. apply day_rows_In, classify_day_some in Hr.
      destruct Hr as (_ & m & _ & ->). reflexivity.
    + intro d. apply short_NoDup. rewrite length_map.
      apply day_rows_short.
Qed.

Lemma compute_stats_keys_NoDup years_back today records :
  compute_stats broker interval years_back today = Returned (Some records) ->
  NoDup (map row_key records).
Proof.
  pose proof (all_rows_NoDup INDICES
                (daterange (today - years_back * 365 + 1) today)
                INDICES_names (daterange_NoDup _ _)) as HN.
  unfold compute_stats. rewrite scan_indices_spec. cbn [bind app].
  destruct (empty _); [discriminate|]. intro H.
  injection H as <-. exact HN.
Qed.

(** X8.  Every row of the table [compute_stats] returns is well formed:
    its day type is one of the six labels and never Normal Day, its IB
    size one of the three, its date a weekday of the scanned window
    [(today - 365 * years_back, today]], its index one of [INDICES]; and
    a returned table is never empty. *)
Theorem compute_stats_rows (years_back today : Z) (records : list DayRow.t) :
  compute_stats broker interval years_back today = Returned (Some records) ->
  records <> [] /\
  Forall (fun r =>
            In (DayRow.day_type r) day_type_labels /\
            DayRow.day_type r <> "Normal Day"%string /\
            In (DayRow.ib_size r) ib_size_labels /\
            is_weekend (DayRow.date r) = false /\
            (today - years_back * 365 < DayRow.date r <= today)%Z /\
            In (DayRow.index r) (map fst INDICES))
         records.
Proof.
  intro Hrun.
  destruct (compute_stats_spec broker interval years_back today)
    as (recs & Hspec & Hin).
  rewrite Hspec in Hrun.
  destruct recs as [|r0 recs]; [discriminate|].
  cbn [empty] in Hrun. injection Hrun as <-.
  split; [discriminate|].
  rewrite Forall_forall. intros r Hr. apply Hin in Hr.
  destruct Hr as (index_name & meta & d & Hi & Hd & Hrow).
  apply classify_day_some in Hrow.
  destruct Hrow as (Hwk & m & Hm & ->).
  cbn [DayRow.day_type DayRow.ib_size DayRow.date DayRow.index].
  split; [apply classify_day_type_label|].
  split; [apply (extracted_not_normal_day _ m Hm)|].
  split; [apply classify_ib_size_label|].
  split; [exact Hwk|]. split; [exact Hd|].
  exact (in_map fst INDICES (index_name, meta) Hi).
Qed.


(** X10.  The table has at most one row for an index and a date, and it
    has one exactly for the weekdays of the window on which the broker's
    rows for that index hold a bar in the Initial Balance window. *)
Theorem compute_stats_keys (years_back today : Z) (records : list DayRow.t) :
  compute_stats broker interval years_back today = Returned (Some records) ->
  NoDup (map row_key records) /\
  forall index_name meta d,
    In (index_name, meta) INDICES ->
    (In (index_name, d) (map row_key records) <->
     (today - years_back * 365 < d <= today)%Z /\
     is_weekend d = false /\
     has_ib_bar (broker (exchange meta) (symboltoken meta) d interval)).
Proof.
  intro Hrun. split; [apply (compute_stats_keys_NoDup _ _ _ Hrun)|].
  destruct (compute_stats_spec broker interval years_back today)
    as (recs & Hspec & Hin).
  rewrite Hspec in Hrun.
  destruct recs as [|r0 recs]; [discriminate|].
  cbn [empty] in Hrun. injection Hrun as <-.
  intros index_name meta d Hi. rewrite in_map_iff. split.
  - intros (r & Hkey & Hr). apply Hin in Hr.
    destruct Hr as (index_name' & meta' & d' & Hi' & Hd' & Hrow).
    apply classify_day_some in Hrow.
    destruct Hrow as (Hwk & m & Hm & ->).
    unfold row_key in Hkey. cbn in Hkey.
    injection Hkey as -> ->.
    assert (meta' = meta).
    { revert Hi Hi'. unfold INDICES. cbn [In].
      intros [H|[H|[]]] [H'|[H'|[]]]; congruence. }
    subst meta'.
    split; [exact Hd'|]. split; [exact Hwk|].
    apply day_metrics_some_iff. exists m. exact Hm.
  - intros (Hd & Hwk & Hib).
    apply day_metrics_some_iff in Hib.
    destruct Hib as (m & Hm).
    exists (DayRow.mk d index_name (classify_day_type m)
                   (classify_ib_size (ib_pct m))
                   (ib_pct m) (ib_ratio m) (day_range m)).
    split; [reflexivity|]. apply Hin.
    exists index_name, meta, d. split; [exact Hi|]. split; [exact Hd|].
    apply classify_day_some. split; [exact Hwk|].
    exists m. split; [exact Hm|reflexivity].
Qed.

End Table.

Lemma compute_stats_rows_witness :
  exists records,
    compute_stats one_day_broker "FIFTEEN_MINUTE" 1 739003
    = Returned (Some records) /\
    records <> [] /\
    Forall (fun r =>
              In (DayRow.day_type r) day_type_labels /\
              DayRow.day_type r <> "Normal Day"%string /\
              In (DayRow.ib_size r) ib_size_labels /\
              is_weekend (DayRow.date r) = false /\
              (739003 - 1 * 365 < DayRow.date r <= 739003)%Z /\
              In (DayRow.index r) (map fst INDICES))
           records.
Proof.
  eexists. split; [vm_compute; reflexivity|].
  apply (compute_stats_rows one_day_broker "FIFTEEN_MINUTE" 1 739003).
  vm_compute. reflexivity.
Defined.


Lemma compute_stats_keys_witness :
  exists records,
    compute_stats one_day_broker "FIFTEEN_MINUTE" 1 739003
    = Returned (Some records) /\
    NoDup (map row_key records) /\
    In ("NIFTY_BANK"%string, 739000%Z) (map row_key records).
Proof.
  eexists. split; [vm_compute; reflexivity|].
  destruct (compute_stats_keys one_day_broker "FIFTEEN_MINUTE" 1 739003 _
              ltac:(vm_compute; reflexivity)) as [Hnd Hkeys].
  split; [exact Hnd|].
  apply (Hkeys "NIFTY_BANK"%string (mkMeta "NSE" "99926009" "Nifty Bank")).
  - right. left. reflexivity.
  - split; [lia|]. split; [reflexivity|].
    exists (bar (hhmm 9 15) 100 105 95 101). split.
    + left. reflexivity.
    + unfold in_ib_window. cbn. lia.
Defined.

(* ===================================================================== *)
(** ** The chunked download: requests                                   *)
(* ===================================================================== *)

Section Chunks.

Import Zerodha.

Variables (fetch_data : Fetcher) (end_date chunk_days : Z).




End Chunks.



(** A run on 150 days in chunks of 60: three requests, four rows. *)
Example fetch_bulk_data_150_days :
  Zerodha.fetch_bulk_data Zerodha.ends_fetcher 4 0 0
    (Some 0%Z) (Some (Zerodha.timedelta_days 150)) 60
  = Some ([ (0, Zerodha.timedelta_days 60);
            (Zerodha.timedelta_days 60, Zerodha.timedelta_days 120);
            (Zerodha.timedelta_days 120, Zerodha.timedelta_days 150) ]%Z,
          [ Zerodha.mkCandle 0 [];
            Zerodha.mkCandle (Zerodha.timedelta_days 60) [];
            Zerodha.mkCandle (Zerodha.timedelta_days 120) [];
            Zerodha.mkCandle (Zerodha.timedelta_days 150) [] ]).
Proof. vm_compute. reflexivity. Qed.



(* ===================================================================== *)
(** ** The chunked download: the frame returned                         *)
(* ===================================================================== *)

Section Frame.

Import Zerodha.

Lemma seen_iff d seen : existsb (Z.eqb d) seen = true <-> In d seen.
Proof.
  rewrite existsb_exists. split.
  - intros (x & Hx & E). apply Z.eqb_eq in E. subst x. exact Hx.
  - intro H. exists d. split; [exact H|apply Z.eqb_refl].
Qed.

Lemma drop_from_In seen rows r :
  In r (drop_from seen rows) -> In r rows /\ ~ In (date r) seen.
Proof.
  revert seen. induction rows as [|x rows IH]; intros seen Hr;
    cbn [drop_from] in Hr; [destruct Hr|].
  destruct (existsb (Z.eqb (date x)) seen) eqn:E.
  - destruct (IH _ Hr) as [H1 H2]. split; [right; exact H1|exact H2].
  - destruct Hr as [<-|Hr].
    + split; [left; reflexivity|].
      intro H. apply seen_iff in H. congruence.
    + destruct (IH _ Hr) as [H1 H2]. split; [right; exact H1|].
      intro H. apply H2. right. exact H.
Qed.

Lemma drop_from_dates seen rows :
  NoDup (map date (drop_from seen rows)).
Proof.
  revert seen. induction rows as [|x rows IH]; intro seen;
    cbn [drop_from]; [constructor|].
  destruct (existsb (Z.eqb (date x)) seen); [apply IH|].
  cbn [map]. constructor; [|apply IH].
  intro H. apply in_map_iff in H. destruct H as (r & Hd & Hr).
  apply drop_from_In in Hr. destruct Hr as [_ Hr].
  apply Hr. left. symmetry. exact Hd.
Qed.

Lemma drop_from_covers seen rows r :
  In r rows ->
  In (date r) seen \/ In (date r) (map date (drop_from seen rows)).
Proof.
  revert seen. induction rows as [|x rows IH]; intros seen Hr;
    [destruct Hr|].
  cbn [drop_from].
  destruct (existsb (Z.eqb (date x)) seen) eqn:E.
  - destruct Hr as [<-|Hr]; [left; apply seen_iff, E|apply IH, Hr].
  - destruct Hr as [<-|Hr]; [right; left; reflexivity|].
    destruct (IH (date x :: seen) Hr) as [[H|H]|H].
    + right. left. exact H.
    + left. exact H.
    + right. right. exact H.
Qed.

Lemma insert_by_date_In x l r :
  In r (insert_by_date x l) <-> r = x \/ In r l.
Proof.
  induction l as [|y l IH]; cbn [insert_by_date].
  - cbn. intuition congruence.
  - destruct (date x <=? date y)%Z; cbn [In]; [intuition congruence|].
    rewrite IH. intuition congruence.
Qed.

Lemma sort_values_In l r : In r (sort_values l) <-> In r l.
Proof.
  induction l as [|x l IH]; cbn [sort_values]; [reflexivity|].
  rewrite insert_by_date_In, IH. cbn. intuition congruence.
Qed.

Lemma insert_by_date_sorted x l :
  StronglySorted before l ->
  ~ In (date x) (map date l) ->
  StronglySorted before (insert_by_date x l).
Proof.
  induction 1 as [|y l Hs IH Hall]; intro Hnew; cbn [insert_by_date].
  - constructor; constructor.
  - cbn [map In] in Hnew.
    assert (Hne : date y <> date x) by tauto.
    assert (Hnew' : ~ In (date x) (map date l)) by tauto.
    rewrite Forall_forall in Hall.
    destruct (date x <=? date y)%Z eqn:E.
    + apply Z.leb_le in E. constructor.
      * constructor; [exact Hs|]. rewrite Forall_forall. exact Hall.
      * rewrite Forall_forall. intros z [<-|Hz]; unfold before in *.
        -- lia.
        -- specialize (Hall z Hz). lia.
    + apply Z.leb_gt in E. constructor; [apply IH, Hnew'|].
      rewrite Forall_forall. intros z Hz.
      apply insert_by_date_In in Hz. destruct Hz as [->|Hz].
      * unfold before. lia.
      * apply Hall, Hz.
Qed.

Lemma sort_values_sorted l :
  NoDup (map date l) -> StronglySorted before (sort_values l).
Proof.
  induction l as [|x l IH]; intro Hnd; cbn [sort_values];
    [constructor|].
  cbn [map] in Hnd. apply NoDup_cons_iff in Hnd. destruct Hnd as [Hx Hnd].
  apply insert_by_date_sorted; [apply IH, Hnd|].
  intro H. apply Hx. apply in_map_iff in H.
  destruct H as (r & Hd & Hr). apply (proj1 (sort_values_In _ _)) in Hr.
  rewrite <- Hd. apply in_map, Hr.
Qed.

Variables (fetch_data : Fetcher) (end_date chunk_days : Z).

Lemma bulk_loop_answered fuel :
  forall current_start st st',
    answered fetch_data st ->
    bulk_loop fetch_data fuel current_start end_date chunk_days st
    = Some st' ->
    answered fetch_data st'.
Proof.
  induction fuel as [|fuel IH]; intros current_start st st' Hst Hrun;
    [discriminate|].
  cbn [bulk_loop] in Hrun.
  destruct (current_start <? end_date)%Z;
    [|injection Hrun as <-; exact Hst].
  apply IH in Hrun; [exact Hrun|]. clear Hrun IH.
  set (current_end :=
         Z.min (current_start + timedelta_days chunk_days) end_date).
  intro r. cbn [requests all_data]. specialize (Hst r).
  assert (Hnew : In r (List.concat
                         (if empty (fetch_data current_start current_end)
                          then all_data st
                          else all_data st
                               ++ [fetch_data current_start current_end]))
                 <-> In r (List.concat (all_data st))
                     \/ In r (fetch_data current_start current_end)).
  { destruct (fetch_data current_start current_end) as [|c cs] eqn:E.
    - cbn [empty In]. tauto.
    - cbn [empty]. rewrite concat_app, in_app_iff. cbn [List.concat].
      rewrite app_nil_r. reflexivity. }
  rewrite Hnew, Hst. split.
  - intros [(q & Hq & Hr)|Hr].
    + exists q. split; [apply in_or_app; left; exact Hq|exact Hr].
    + exists (current_start, current_end).
      split; [apply in_or_app; right; left; reflexivity|exact Hr].
  - intros (q & Hq & Hr). apply in_app_or in Hq.
    destruct Hq as [Hq|[<-|[]]].
    + left. exists q. split; assumption.
    + right. exact Hr.
Qed.

End Frame.

(** X13.  Whatever the fetcher answers, the frame [fetch_bulk_data]
    returns is in strictly increasing order of timestamp, so no timestamp
    occurs twice; each of its rows was answered to one of the requests
    sent; and every timestamp answered to any request is in it. *)
Theorem fetch_bulk_data_sorted_unique
    (fetch_data : Zerodha.Fetcher) (fuel : nat) (first_day now : Z)
    (start_date end_date : option Z) (chunk_days : Z)
    (reqs : list (Z * Z)) (rows : list Zerodha.Candle) :
  Zerodha.fetch_bulk_data fetch_data fuel first_day now
    start_date end_date chunk_days = Some (reqs, rows) ->
  StronglySorted Zerodha.before rows /\
  (forall r, In r rows ->
             exists q, In q reqs /\ In r (fetch_data (fst q) (snd q))) /\
  (forall q r, In q reqs -> In r (fetch_data (fst q) (snd q)) ->
               In (Zerodha.date r) (map Zerodha.date rows)).
Proof.
  unfold Zerodha.fetch_bulk_data. intro Hrun.
  destruct (Zerodha.bulk_loop _ _ _ _ _ _) as [st|] eqn:Eloop;
    [|discriminate].
  assert (Hans : Zerodha.answered fetch_data st).
  { eapply bulk_loop_answered; [|exact Eloop].
    intro r. cbn. split; [intros []|intros (q & [] & _)]. }
  assert (Hrows : rows = Zerodha.sort_values
                           (Zerodha.drop_duplicates
                              (List.concat (Zerodha.all_data st)))).
  { destruct (Zerodha.all_data st); cbn [empty] in Hrun;
      [cbn; congruence|congruence]. }
  assert (Hreqs : reqs = Zerodha.requests st) by congruence.
  subst rows reqs. clear Hrun. split; [|split].
  - apply sort_values_sorted. apply drop_from_dates.
  - intros r Hr. apply (proj1 (sort_values_In _ _)) in Hr.
    apply drop_from_In in Hr. apply Hans, Hr.
  - intros q r Hq Hr.
    assert (Hin : In r (List.concat (Zerodha.all_data st)))
      by (apply Hans; exists q; split; assumption).
    destruct (drop_from_covers [] _ r Hin) as [[]|Hd].
    apply in_map_iff in Hd. destruct Hd as (r' & Hd & Hr').
    rewrite <- Hd. apply in_map. apply sort_values_In. exact Hr'.
Qed.

Lemma fetch_bulk_data_sorted_unique_witness :
  exists reqs rows,
    Zerodha.fetch_bulk_data Zerodha.ends_fetcher 4 0 0
      (Some 0%Z) (Some (Zerodha.timedelta_days 150)) 60
    = Some (reqs, rows) /\
    StronglySorted Zerodha.before rows.
Proof.
  eexists. eexists. split; [vm_compute; reflexivity|].
  apply (fetch_bulk_data_sorted_unique Zerodha.ends_fetcher 4 0 0
           (Some 0%Z) (Some (Zerodha.timedelta_days 150)) 60 _ _
           ltac:(vm_compute; reflexivity)).
Defined.

(* ===================================================================== *)
(** ** Percentage tables                                                *)
(* ===================================================================== *)

Section Percentages.

Import Viz.
















End Percentages.

Section Heatmaps.

Import Viz.











End Heatmaps.





(* ===================================================================== *)
(** ** [run_all.py]: from the broker to the heatmaps                    *)
(* ===================================================================== *)





